(** * Automated WhatsApp Sender: a shallow embedding of the dispatch core

  The development follows the four Python modules of the repository:
  [config.py], [whatsapp_sender.py], [scheduler.py] and
  [contact_manager.py].  Python strings are Rocq strings (one [ascii] per
  character), Python integers are [Z], a pandas row is a finite map from
  column names to cells, and the three things the program talks to (the
  wall clock, the pywhatkit browser channel and the file system) are an
  explicit environment plus an explicit world state that every effectful
  function threads through. *)

From Stdlib Require Import ZArith Ascii DecimalString.
From stdpp Require Import gmap strings list.

Local Open Scope Z_scope.

(** ** Python built-ins used by the program *)

Module Py.

(** [s.startswith(p)] *)
Fixpoint startswith (s p : string) {struct p} : bool :=
    match p, s with
    | EmptyString, _ => true
    | String _ _, EmptyString => false
    | String a p', String b s' => Ascii.eqb a b && startswith s' p'
    end.

(** [sub in s] *)
Fixpoint contains (sub s : string) : bool :=
    startswith s sub ||
    match s with
    | EmptyString => false
    | String _ s' => contains sub s'
    end.

(** The scan behind [s.replace(old, new)] for a non-empty [old]: walk [s]
      from the left; at a position where [old] starts, emit [new] and skip
      the remaining characters of that occurrence ([skip] counts them). *)
Fixpoint replace_from (old new : string) (skip : nat) (s : string) : string :=
    match s with
    | EmptyString => EmptyString
    | String c s' =>
        match skip with
        | S k => replace_from old new k s'
        | O =>
            if startswith s old
            then new +:+ replace_from old new (Nat.pred (String.length old)) s'
            else String c (replace_from old new O s')
        end
    end.

(** With an empty [old], Python puts [new] before every character and at
      the end. *)
Fixpoint interleave (new s : string) : string :=
    match s with
    | EmptyString => new
    | String c s' => new +:+ String c (interleave new s')
    end.

(** [s.replace(old, new)] *)
Definition replace (s old new : string) : string :=
    match old with
    | EmptyString => interleave new s
    | String _ _ => replace_from old new O s
    end.

(** [sep.join(pieces)] *)
Fixpoint join (sep : string) (pieces : list string) : string :=
    match pieces with
    | [] => EmptyString
    | [p] => p
    | p :: ps => p +:+ sep +:+ join sep ps
    end.

(** [s[:n]] *)
Definition slice_to (n : nat) (s : string) : string := String.substring 0 n s.

(** [str(i)] for an integer. *)
Definition str_int (i : Z) : string := NilZero.string_of_int (Z.to_int i).

(** [s.zfill(width)] for the digit strings of the time stamp. *)
Fixpoint zeros (n : nat) : string :=
    match n with
    | O => EmptyString
    | S k => String "0" (zeros k)
    end.

Definition zfill (width : nat) (s : string) : string :=
    zeros (width - String.length s) +:+ s.

End Py.

(** ** config.py *)

Module config.
Definition WAIT_TIME : Z := 15.
Definition CLOSE_TIME : Z := 3.
Definition DEFAULT_COUNTRY_CODE : string := "+91".
Definition MAX_RETRY_ATTEMPTS : Z := 3.
Definition RETRY_DELAY : Z := 60.
Definition CONTACTS_FILE : string := "contacts.csv".
Definition LOG_FILE : string := "message_log.txt".
Definition DEFAULT_SCHEDULE_HOUR : Z := 9.
Definition DEFAULT_SCHEDULE_MINUTE : Z := 0.
End config.

(** ** The wall clock *)

(** What [datetime.now()] returns. *)
Record datetime := {
  year : Z; month : Z; day : Z;
  hour : Z; minute : Z; second : Z
}.

(** A reading of a real clock. *)
Definition wall_clock (t : datetime) : Prop :=
  0 <= hour t < 24 ∧ 0 <= minute t < 60.

(** [t.strftime("%Y-%m-%d %H:%M:%S")] (years of four digits). *)
Definition strftime (t : datetime) : string :=
  Py.zfill 4 (Py.str_int (year t)) +:+ "-" +:+
  Py.zfill 2 (Py.str_int (month t)) +:+ "-" +:+
  Py.zfill 2 (Py.str_int (day t)) +:+ " " +:+
  Py.zfill 2 (Py.str_int (hour t)) +:+ ":" +:+
  Py.zfill 2 (Py.str_int (minute t)) +:+ ":" +:+
  Py.zfill 2 (Py.str_int (second t)).

(** "Get current time and add 2 minutes", lines 41-47 of
    [whatsapp_sender.py]: the hour and minute handed to the channel. *)
Definition two_minutes_ahead (now : datetime) : Z * Z :=
  let hour0 := hour now in
  let minute0 := minute now + 2 in
  if minute0 >=? 60 then (hour0 + 1, minute0 - 60) else (hour0, minute0).

(** "Ensure phone number has country code", the same two lines in
    [send_message], [send_instant_message] and [schedule_message]. *)
Definition ensure_country_code (default_prefix phone_number : string) : string :=
  if negb (Py.startswith phone_number "+")
  then default_prefix +:+ phone_number
  else phone_number.

(** ** pandas values *)

(** A cell of a [DataFrame]: text, an integer, or the missing value NaN that
    [read_csv] puts where a field is blank.  (Other floating-point cells
    are outside the model.) *)
Inductive cell :=
| CStr (s : string)
| CInt (i : Z)
| CNaN.

#[global] Instance cell_eq_dec : EqDecision cell.
Proof. solve_decision. Defined.

(** [str(c)] *)
Definition str (c : cell) : string :=
  match c with
  | CStr s => s
  | CInt i => Py.str_int i
  | CNaN => "nan"
  end.

(** A row as [iterrows] yields it: a [Series] indexed by column name. *)
Abbreviation Series := (gmap string cell).

(** The exceptions that matter. [Error] is any other [Exception]; its
    argument is what [str(e)] gives. *)
Inductive exn :=
| KeyError (key : string)
| TypeError (what : string)
| Error (reason : string).

(** ** pywhatkit and the world *)

(** The two entry points of pywhatkit the program calls, with the
    arguments it passes ([close_time] is optional in the library). *)
Inductive request :=
| sendwhatmsg (phone_no message : string) (time_hour time_min : Z)
    (wait_time : Z) (tab_close : bool) (close_time : option Z)
| sendwhatmsg_instantly (phone_no message : string)
    (wait_time : Z) (tab_close : bool) (close_time : Z).

Definition phone_no_of (r : request) : string :=
  match r with
  | sendwhatmsg p _ _ _ _ _ _ => p
  | sendwhatmsg_instantly p _ _ _ _ => p
  end.

Definition message_of (r : request) : string :=
  match r with
  | sendwhatmsg _ m _ _ _ _ _ => m
  | sendwhatmsg_instantly _ m _ _ _ => m
  end.

(** A call into pywhatkit either returns or raises. *)
Inductive outcome :=
| Returned
| Raised (reason : string).

#[global] Instance outcome_eq_dec : EqDecision outcome.
Proof. solve_decision. Defined.

(** Everything the program changes outside its own variables: the calls
    made to pywhatkit (oldest first), the lines appended to
    [config.LOG_FILE], and the seconds spent in [time.sleep].  What
    [print] writes to the terminal is not modelled. *)
Record World := {
  requests : list request;
  log_file : list string;
  slept : Z
}.

Definition empty_world : World :=
  {| requests := []; log_file := []; slept := 0 |}.

(** What the program reads from outside: the clock, how pywhatkit answers
    a call (it may depend on everything that happened before), and what
    [pd.read_csv] finds at a path ([inl] when it raises).  Appending to the
    log file is taken to succeed. *)
Record Env := {
  now : World → datetime;
  kit : World → request → outcome;
  read_csv : string → exn + list Series
}.

Definition call (E : Env) (r : request) (w : World) : outcome * World :=
  (kit E w r,
   {| requests := requests w ++ [r]; log_file := log_file w; slept := slept w |}).

Definition sleep (seconds : Z) (w : World) : World :=
  {| requests := requests w; log_file := log_file w; slept := slept w + seconds |}.

Definition newline : string := String (ascii_of_nat 10) EmptyString.

(** ** whatsapp_sender.py *)

Module whatsapp_sender.

(** One entry of [results["details"]]. *)
Record Detail := {
  name : cell;
  phone : string;
  status : string
}.

(** The dictionary [results]. *)
Record Results := {
  success : Z;
  failed : Z;
  details : list Detail
}.

Definition no_results : Results :=
  {| success := 0; failed := 0; details := [] |}.

(** The f-string of [log_message]. *)
Definition log_entry (timestamp phone status message : string) : string :=
  "[" +:+ timestamp +:+ "] " +:+ phone +:+ " | " +:+ status +:+ " | " +:+
  Py.slice_to 50 message +:+ "..." +:+ newline.

Section Sender.

Context (E : Env).

(** [log_message(phone, message, status)]: one line appended to the log
    file. *)
Definition log_message (phone message status : string) (w : World) : World :=
  let timestamp := strftime (now E w) in
  {| requests := requests w;
     log_file := log_file w ++ [log_entry timestamp phone status message];
     slept := slept w |}.

(** [send_message(phone_number, message, wait_time)].  The [try] body
    raises only where pywhatkit does; the handler logs the failure and
    returns [False]. *)
Definition send_message (phone_number message : string) (wait_time : option Z)
    (w : World) : bool * World :=
  let wait_time := default config.WAIT_TIME wait_time in
  let phone_number := ensure_country_code config.DEFAULT_COUNTRY_CODE phone_number in
  let '(hour, minute) := two_minutes_ahead (now E w) in
  match call E (sendwhatmsg phone_number message hour minute wait_time true
                  (Some config.CLOSE_TIME)) w with
  | (Returned, w) => (true, log_message phone_number message "SUCCESS" w)
  | (Raised e, w) => (false, log_message phone_number message ("FAILED: " +:+ e) w)
  end.

(** [send_instant_message(phone_number, message)]: no log entry on either
    path. *)
Definition send_instant_message (phone_number message : string) (w : World)
    : bool * World :=
  let phone_number := ensure_country_code config.DEFAULT_COUNTRY_CODE phone_number in
  match call E (sendwhatmsg_instantly phone_number message config.WAIT_TIME true
                  config.CLOSE_TIME) w with
  | (Returned, w) => (true, w)
  | (Raised e, w) => (false, w)
  end.

(** [message.replace("{name}", name)]: a [TypeError] unless [name] is a
    [str]. *)
Definition replace_name (message : string) (name : cell) : exn + string :=
  match name with
  | CStr n => inr (Py.replace message "{name}" n)
  | _ => inl (TypeError "replace() argument 2 must be str")
  end.

(** Lines 126-130: what one row contributes before anything is sent.
    [row.get('name', 'Friend')] falls back only when the row has no
    [name] entry; [row['phone']] raises [KeyError] when it has no [phone]
    entry. *)
Definition prepare (message : string) (personalize : bool) (row : Series)
    : exn + (cell * string * string) :=
  let name := default (CStr "Friend") (row !! "name") in
  match row !! "phone" with
  | None => inl (KeyError "phone")
  | Some p =>
      let phone := str p in
      match (if personalize then replace_name message name else inr message) with
      | inl e => inl e
      | inr current_message => inr (name, phone, current_message)
      end
  end.

(** The body of [for index, row in df.iterrows()], from row [index] on.
    [results] is updated in place, so when an iteration raises, the
    handler at line 159 returns what had been accumulated up to then. *)
Fixpoint bulk_loop (message : string) (personalize : bool) (total index : Z)
    (rows : list Series) (results : Results) (w : World) : Results * World :=
  match rows with
  | [] => (results, w)
  | row :: rest =>
      match prepare message personalize row with
      | inl e => (results, w)
      | inr (name, phone, current_message) =>
          let '(ok, w) := send_message phone current_message None w in
          let results :=
            {| success := if ok then success results + 1 else success results;
               failed := if ok then failed results else failed results + 1;
               details := details results ++
                 [{| name := name; phone := phone;
                     status := if ok then "success" else "failed" |}] |} in
          let w := if index <? total - 1 then sleep 30 w else w in
          bulk_loop message personalize total (index + 1) rest results w
      end
  end.

(** [send_bulk_messages(contacts_file, message, personalize)] *)
Definition send_bulk_messages (contacts_file message : string)
    (personalize : bool) (w : World) : Results * World :=
  let results := no_results in
  match read_csv E contacts_file with
  | inl e => (results, w)
  | inr df =>
      let total := Z.of_nat (length df) in
      bulk_loop message personalize total 0 df results w
  end.

End Sender.

End whatsapp_sender.

(** ** scheduler.py *)

Module scheduler.

Section Scheduler.

Context (E : Env).

(** [schedule_message(phone_number, message, hour, minute)]: the same
    normalisation, one call into pywhatkit for the given time, nothing
    written to the log. *)
Definition schedule_message (phone_number message : string) (hour minute : Z)
    (w : World) : bool * World :=
  let phone_number := ensure_country_code config.DEFAULT_COUNTRY_CODE phone_number in
  match call E (sendwhatmsg phone_number message hour minute config.WAIT_TIME true
                  None) w with
  | (Returned, w) => (true, w)
  | (Raised e, w) => (false, w)
  end.

(** The closure [job] that [schedule_daily_message] and
    [schedule_weekly_message] hand to the [schedule] package.  It returns
    [None] whatever [schedule_message] returned.  When and how often the
    package runs it is the package's business and is not embedded here. *)
Definition job (phone_number message : string) (w : World) : unit * World :=
  let now := now E w in
  let '(_, w) := schedule_message phone_number message (hour now) (minute now + 2) w in
  (tt, w).

End Scheduler.

End scheduler.

(** ** contact_manager.py *)

Module contact_manager.

(** A row of the contacts table, columns [name], [phone], [group]. *)
Record Contact := {
  name : cell;
  phone : cell;
  group : cell
}.

#[global] Instance Contact_eq_dec : EqDecision Contact.
Proof. solve_decision. Defined.

(** The object [self]. *)
Record ContactManager := {
  file_path : string;
  contacts : list Contact
}.

(** The tables on disk, by path: CSV files the manager reads and writes. *)
Abbreviation Disk := (gmap string (list Contact)).

(** [df.drop_duplicates(subset=['phone'], keep='last')]: a row goes when a
    later row has the same phone (pandas counts two NaN as the same). *)
Fixpoint drop_duplicates_last (rows : list Contact) : list Contact :=
  match rows with
  | [] => []
  | r :: rest =>
      if decide (phone r ∈ phone <$> rest)
      then drop_duplicates_last rest
      else r :: drop_duplicates_last rest
  end.

(** [save_contacts()] *)
Definition save_contacts (self : ContactManager) (disk : Disk) : Disk :=
  <[file_path self := contacts self]> disk.

(** [add_contact(name, phone, group)] *)
Definition add_contact (name phone group : string) (self : ContactManager)
    (disk : Disk) : ContactManager * Disk :=
  let new_contact :=
    [{| name := CStr name; phone := CStr phone; group := CStr group |}] in
  let self := {| file_path := file_path self;
                 contacts := contacts self ++ new_contact |} in
  (self, save_contacts self disk).

(** [remove_contact(phone)] *)
Definition remove_contact (phone_ : string) (self : ContactManager)
    (disk : Disk) : ContactManager * Disk :=
  let initial_count := length (contacts self) in
  let self := {| file_path := file_path self;
                 contacts := filter (λ c, phone c ≠ CStr phone_) (contacts self) |} in
  if decide (length (contacts self) < initial_count)%nat
  then (self, save_contacts self disk)
  else (self, disk).

(** [get_contacts_by_group(group)] *)
Definition get_contacts_by_group (group_ : string) (self : ContactManager)
    : list cell :=
  phone <$> filter (λ c, group c = CStr group_) (contacts self).

(** [import_from_excel(excel_path)]; [read_excel] is what [pd.read_excel]
    finds at the path.  When it raises, the handler only prints. *)
Definition import_from_excel (read_excel : string → exn + list Contact)
    (excel_path : string) (self : ContactManager) (disk : Disk)
    : ContactManager * Disk :=
  match read_excel excel_path with
  | inl e => (self, disk)
  | inr df =>
      let self := {| file_path := file_path self;
                     contacts := contacts self ++ df |} in
      let self := {| file_path := file_path self;
                     contacts := drop_duplicates_last (contacts self) |} in
      (self, save_contacts self disk)
  end.

End contact_manager.

(** ** Vocabulary of the statements *)

(** A template is free of the placeholder. *)
Definition plain (s : string) : Prop := Py.contains "{name}" s = false.

Definition is_text (c : cell) : bool :=
  match c with
  | CStr _ => true
  | _ => false
  end.

(** A row as the data model has a recipient: it has a phone and, where
    the name goes into the message, the name (if there is one) is text. *)
Definition sendable (personalize : bool) (row : Series) : bool :=
  bool_decide (is_Some (row !! "phone")) &&
  (negb personalize || from_option is_text true (row !! "name")).

(** The name a row is addressed by. *)
Definition display_name (row : Series) : cell :=
  match row !! "name" with
  | Some v => v
  | None => CStr "Friend"
  end.

(** The text a row is to receive. *)
Definition text_for (message : string) (personalize : bool) (row : Series)
    : string :=
  match personalize, display_name row with
  | true, CStr n => Py.replace message "{name}" n
  | _, _ => message
  end.

(** [d] is the detail entry of [row]: its name and its phone as the table
    has it, and one of the two statuses. *)
Definition detail_of (row : Series) (d : whatsapp_sender.Detail) : Prop :=
  whatsapp_sender.name d = display_name row ∧
  Some (whatsapp_sender.phone d) = str <$> row !! "phone" ∧
  (whatsapp_sender.status d = "success" ∨ whatsapp_sender.status d = "failed").

(** [rq] is the call into pywhatkit made for [row]: to its phone with the
    country code ensured, with its text. *)
Definition attempt_of (message : string) (personalize : bool) (row : Series)
    (rq : request) : Prop :=
  Some (phone_no_of rq) =
    ensure_country_code config.DEFAULT_COUNTRY_CODE <$> (str <$> row !! "phone") ∧
  message_of rq = text_for message personalize row.

(** The status the loop records for an outcome of the channel. *)
Definition status_of (o : outcome) : string :=
  match o with
  | Returned => "success"
  | Raised _ => "failed"
  end.

(** The status [send_message] writes to the log for an outcome. *)
Definition log_status (o : outcome) : string :=
  match o with
  | Returned => "SUCCESS"
  | Raised e => "FAILED: " +:+ e
  end.

(** [line] is the log line of [row] for outcome [o], character by
    character: a time stamp in brackets, the phone with the country code
    ensured, the status of the outcome, the first 50 characters of the
    row's text, three dots and a line feed. *)
Definition log_line_of (message : string) (personalize : bool)
    (row_outcome : Series * outcome) (line : string) : Prop :=
  ∃ t p,
    row_outcome.1 !! "phone" = Some p ∧
    line =
      "[" +:+ strftime t +:+ "] " +:+
      ensure_country_code config.DEFAULT_COUNTRY_CODE (str p) +:+ " | " +:+
      log_status row_outcome.2 +:+ " | " +:+
      Py.slice_to 50 (text_for message personalize row_outcome.1) +:+
      "..." +:+ newline.

(** How many of the outcomes are deliveries. *)
Definition delivered (outs : list outcome) : Z :=
  Z.of_nat (length (filter (λ o, o = Returned) outs)).

(** An environment in which the [i]-th call into pywhatkit (counting from
    0) has the [i]-th outcome of a given list, and calls beyond the list
    return. *)
Definition scripted (clock : World → datetime)
    (files : string → exn + list Series) (outs : list outcome) : Env :=
  {| now := clock;
     kit := λ w _, default Returned (outs !! length (requests w));
     read_csv := files |}.

(** ** Worked inputs *)

Definition noon : datetime :=
  {| year := 2026; month := 11; day := 3; hour := 12; minute := 0; second := 0 |}.

(** One minute before midnight. *)
Definition almost_midnight : datetime :=
  {| year := 2026; month := 11; day := 3; hour := 23; minute := 59; second := 0 |}.

(** A row with a name and a phone. *)
Definition contact (name phone : string) : Series :=
  <["name" := CStr name]> (<["phone" := CStr phone]> ∅).

(** A batch of three; the phone of B lacks the country code. *)
Definition batch_abc : list Series :=
  [contact "A" "+911111111111"; contact "B" "9222222222";
   contact "C" "+913333333333"].

(** A file system with one readable table. *)
Definition one_file (path : string) (rows : list Series) (p : string)
    : exn + list Series :=
  if decide (p = path) then inr rows else inl (Error "No such file or directory").

(** The batch is in [contacts.csv], the clock stands at noon, and the
    channel delivers to A and C and raises for B with the given reason. *)
Definition abc_env (reason : string) : Env :=
  scripted (λ _, noon) (one_file "contacts.csv" batch_abc)
    [Returned; Raised reason; Returned].

(** A contacts table with Asha and Bina, and a sheet that has Asha's
    number again under a new name. *)
Definition asha : contact_manager.Contact :=
  {| contact_manager.name := CStr "Asha";
     contact_manager.phone := CStr "+919876543210";
     contact_manager.group := CStr "general" |}.

Definition bina : contact_manager.Contact :=
  {| contact_manager.name := CStr "Bina";
     contact_manager.phone := CStr "+919000000000";
     contact_manager.group := CStr "family" |}.

Definition asha_renamed : contact_manager.Contact :=
  {| contact_manager.name := CStr "Asha K";
     contact_manager.phone := CStr "+919876543210";
     contact_manager.group := CStr "work" |}.

Definition one_sheet (path : string) (rows : list contact_manager.Contact)
    (p : string) : exn + list contact_manager.Contact :=
  if decide (p = path) then inr rows else inl (Error "No such file or directory").

(** ** The interactive entry point of whatsapp_sender.py *)

Module terminal.

(** [c.isspace()] on the characters of the model: the ASCII blanks and
    separators, NEL and the no-break space. *)
Definition isspace (c : ascii) : bool :=
  let n := nat_of_ascii c in
  ((9 <=? n) && (n <=? 13) || (28 <=? n) && (n <=? 32) ||
   (n =? 133) || (n =? 160))%nat.

(** [s.lstrip()] *)
Fixpoint lstrip (s : string) : string :=
  match s with
  | EmptyString => EmptyString
  | String c s' => if isspace c then lstrip s' else s
  end.

(** [s.rstrip()] *)
Fixpoint rstrip (s : string) : string :=
  match s with
  | EmptyString => EmptyString
  | String c s' =>
      match rstrip s' with
      | EmptyString => if isspace c then EmptyString else String c EmptyString
      | r => String c r
      end
  end.

(** [s.strip()] *)
Definition strip (s : string) : string := rstrip (lstrip s).

(** [c.lower()] on the characters of the model: the capital letters of
    ASCII and of Latin-1 (the multiplication sign is not one). *)
Definition lower_char (c : ascii) : ascii :=
  let n := nat_of_ascii c in
  if ((65 <=? n) && (n <=? 90) ||
      (192 <=? n) && (n <=? 222) && negb (n =? 215))%nat
  then ascii_of_nat (n + 32)
  else c.

(** [s.lower()] *)
Fixpoint lower (s : string) : string :=
  match s with
  | EmptyString => EmptyString
  | String c s' => String (lower_char c) (lower s')
  end.

(** What [input] raises when the terminal has no more lines. *)
Definition EOFError : exn := Error "EOF when reading a line".

(** [main()] of [whatsapp_sender.py], run against the lines that will be
    typed.  Each [input(...)] takes the next line and raises [EOFError]
    when there is none; nothing has been sent or written by then. *)
Definition main (E : Env) (stdin : list string) (w : World) : exn + World :=
  match stdin with
  | [] => inl EOFError
  | choice :: stdin =>
      let choice := strip choice in
      if decide (choice = "1") then
        match stdin with
        | phone :: message :: _ =>
            let phone := strip phone in
            let message := strip message in
            inr (whatsapp_sender.send_message E phone message None w).2
        | _ => inl EOFError
        end
      else if decide (choice = "2") then
        match stdin with
        | file_path :: message :: personalize :: _ =>
            let file_path := strip file_path in
            let file_path :=
              if decide (file_path = EmptyString) then config.CONTACTS_FILE
              else file_path in
            let message := strip message in
            let personalize := bool_decide (lower personalize = "y") in
            inr (whatsapp_sender.send_bulk_messages E file_path message
                   personalize w).2
        | _ => inl EOFError
        end
      else inr w
  end.

End terminal.

(** ** More vocabulary *)

(** The rows of a table up to the first one the loop body cannot
    process. *)
Fixpoint sendable_prefix (personalize : bool) (rows : list Series)
    : list Series :=
  match rows with
  | [] => []
  | row :: rest =>
      if sendable personalize row
      then row :: sendable_prefix personalize rest
      else []
  end.

(** A row with a phone and no name entry, and a row with a blank name. *)
Definition nameless (phone : string) : Series :=
  <["phone" := CStr phone]> ∅.

Definition blank_name (phone : string) : Series :=
  <["name" := CNaN]> (<["phone" := CStr phone]> ∅).

(** A table whose second row has a blank name, in [contacts.csv]; the
    clock stands at noon and every delivery succeeds. *)
Definition batch_blank : list Series :=
  [contact "A" "+911111111111"; blank_name "+912222222222";
   contact "C" "+913333333333"].

Definition blank_env : Env :=
  scripted (λ _, noon) (one_file "contacts.csv" batch_blank) [].

(** A contact whose phone the table holds as a number, as [read_csv]
    yields it for a column of digits. *)
Definition numeric_phone : contact_manager.Contact :=
  {| contact_manager.name := CStr "Chitra";
     contact_manager.phone := CInt 9876543210;
     contact_manager.group := CStr "general" |}.

(** * Properties *)

(** ** Strings *)

Section Strings.

Implicit Types s p a b old new : string.

Lemma app_nil_l s : EmptyString +:+ s = s.
Proof. done. Qed.

Lemma app_cons c a s : String c a +:+ s = String c (a +:+ s).
Proof. done. Qed.

Lemma app_empty_r s : s +:+ EmptyString = s.
Proof. induction s as [|c s IH]; [done |]. by rewrite app_cons, IH. Qed.

Lemma app_assoc' a b s : (a +:+ b) +:+ s = a +:+ b +:+ s.
Proof. induction a as [|c a IH]; [done |]. by rewrite !app_cons, IH. Qed.

Lemma startswith_app p s : Py.startswith (p +:+ s) p = true.
Proof.
  induction p as [|c p IH]; [done |].
  rewrite app_cons. simpl. by rewrite Ascii.eqb_refl, IH.
Qed.

Lemma startswith_inv s p :
  Py.startswith s p = true → ∃ rest, s = p +:+ rest.
Proof.
  revert s. induction p as [|c p IH]; intros s H.
  - by exists s.
  - destruct s as [|d s]; simpl in H; [done |].
    apply andb_prop in H as [Hc Hs]. apply Ascii.eqb_eq in Hc as ->.
    destruct (IH _ Hs) as [rest ->]. by exists rest.
Qed.

Lemma startswith_spec s p :
  Py.startswith s p = true ↔ ∃ rest, s = p +:+ rest.
Proof.
  split; [apply startswith_inv |]. intros [rest ->]. apply startswith_app.
Qed.

Lemma contains_cons sub c s :
  Py.contains sub (String c s) =
  Py.startswith (String c s) sub || Py.contains sub s.
Proof. done. Qed.

Lemma contains_startswith sub s :
  Py.startswith s sub = true → Py.contains sub s = true.
Proof. intros H. destruct s; simpl; by rewrite H. Qed.

(** [sub in s] holds exactly when [s] can be cut around a copy of [sub]. *)
Lemma contains_spec sub s :
  Py.contains sub s = true ↔ ∃ a b, s = a +:+ sub +:+ b.
Proof.
  split.
  - induction s as [|c s IH].
    + simpl. rewrite orb_false_r. intros H.
      destruct (startswith_inv _ _ H) as [rest ->]. by exists EmptyString, rest.
    + rewrite contains_cons. intros [H|H]%orb_prop.
      * destruct (startswith_inv _ _ H) as [rest ->]. by exists EmptyString, rest.
      * destruct (IH H) as (a & b & ->). by exists (String c a), b.
  - intros (a & b & ->). induction a as [|c a IH].
    + rewrite app_nil_l. apply contains_startswith, startswith_app.
    + rewrite app_cons, contains_cons, IH. apply orb_true_r.
Qed.

Lemma contains_app_r sub a b :
  Py.contains sub (a +:+ b) = false → Py.contains sub b = false.
Proof.
  intros H. destruct (Py.contains sub b) eqn:Hb; [|done].
  apply contains_spec in Hb as (x & y & ->).
  assert (Py.contains sub (a +:+ x +:+ sub +:+ y) = true) as Ht; [|congruence].
  apply contains_spec. exists (a +:+ x), y. by rewrite app_assoc'.
Qed.

(** A string without [old] comes back from the scan as it went in. *)
Lemma replace_from_absent old new s :
  Py.contains old s = false → Py.replace_from old new O s = s.
Proof.
  induction s as [|c s IH]; [done |].
  rewrite contains_cons. intros [H1 H2]%orb_false_elim.
  cbn [Py.replace_from]. rewrite H1, IH; done.
Qed.

(** The built-ins behave as Python's on small inputs. *)
Example replace_each_occurrence :
  Py.replace "Hi {name}, bye {name}!" "{name}" "Asha" = "Hi Asha, bye Asha!".
Proof. reflexivity. Qed.

Example replace_leftmost_first : Py.replace "aaa" "aa" "b" = "ba".
Proof. reflexivity. Qed.

Example replace_empty_pattern : Py.replace "abc" EmptyString "-" = "-a-b-c-".
Proof. reflexivity. Qed.

Example str_of_cells :
  str (CInt 9876543210) = "9876543210" ∧ str (CInt (-5)) = "-5" ∧
  str (CStr "+91 98") = "+91 98" ∧ str CNaN = "nan".
Proof. by vm_compute. Qed.

Example strftime_pads :
  strftime {| year := 2026; month := 1; day := 5;
              hour := 9; minute := 7; second := 0 |} = "2026-01-05 09:07:00".
Proof. by vm_compute. Qed.

End Strings.

(** ** The placeholder [{name}] *)

Section Placeholder.

Implicit Types s a b n : string.

(** No copy of the placeholder starts before one that is already there
    and runs into it: the brace opens the placeholder and occurs nowhere
    else in it. *)
Lemma placeholder_no_straddle c a b :
  Py.startswith (String c a +:+ "{name}" +:+ b) "{name}" =
  Py.startswith (String c a) "{name}".
Proof.
  destruct a as [|c2 [|c3 [|c4 [|c5 [|c6 a]]]]];
    rewrite ?app_cons, ?app_nil_l; simpl;
    repeat match goal with
           | |- context [Ascii.eqb ?x ?y] => destruct (Ascii.eqb x y); simpl
           end; done.
Qed.

Lemma replace_at_placeholder n a b :
  plain a →
  Py.replace_from "{name}" n O (a +:+ "{name}" +:+ b) =
  a +:+ n +:+ Py.replace_from "{name}" n O b.
Proof.
  unfold plain. induction a as [|c a IH]; intros Ha.
  - rewrite !app_nil_l.
    change ("{name}" +:+ b) with (String "{" ("name}" +:+ b)).
    cbn [Py.replace_from].
    change (String "{" ("name}" +:+ b)) with ("{name}" +:+ b).
    rewrite startswith_app. f_equal.
  - rewrite contains_cons in Ha. apply orb_false_elim in Ha as [H1 H2].
    rewrite (app_cons c a), (app_cons c).
    cbn [Py.replace_from].
    rewrite <- (app_cons c a), placeholder_no_straddle, H1.
    by rewrite IH.
Qed.

(** Every copy of the placeholder is replaced: a template cut at its
    placeholders comes back with the name between the same pieces. *)
Lemma replace_join n (pieces : list string) :
  Forall plain pieces →
  Py.replace (Py.join "{name}" pieces) "{name}" n = Py.join n pieces.
Proof.
  unfold Py.replace.
  induction pieces as [|p ps IH]; intros H; [done |].
  apply Forall_cons in H as [Hp Hps].
  destruct ps as [|q ps].
  - by apply replace_from_absent.
  - change (Py.join "{name}" (p :: q :: ps))
      with (p +:+ "{name}" +:+ Py.join "{name}" (q :: ps)).
    rewrite replace_at_placeholder by done. by rewrite IH.
Qed.

Lemma join_cons_head sep c p (ps : list string) :
  String c (Py.join sep (p :: ps)) = Py.join sep (String c p :: ps).
Proof. by destruct ps. Qed.

Lemma join_app_head sep a p (ps : list string) :
  a +:+ Py.join sep (p :: ps) = Py.join sep ((a +:+ p) :: ps).
Proof. destruct ps; [done |]. cbn [Py.join]. by rewrite app_assoc'. Qed.

(** Every template can be cut that way. *)
Lemma cut_at_placeholders s :
  ∃ p ps, Forall plain (p :: ps) ∧ s = Py.join "{name}" (p :: ps).
Proof.
  induction s as [|c s (p & ps & Hall & ->)].
  - exists EmptyString, []. split; [by repeat constructor | done].
  - apply Forall_cons in Hall as [Hp Hps].
    rewrite join_cons_head.
    destruct (Py.startswith (String c p) "{name}") eqn:Hc.
    + destruct (startswith_inv _ _ Hc) as [p' Hp'].
      exists EmptyString, (p' :: ps). split.
      * repeat constructor; [| done].
        injection Hp' as _ ->. by apply (contains_app_r _ "name}").
      * rewrite Hp'. by rewrite <- join_app_head.
    + exists (String c p), ps. split; [| done].
      constructor; [| done]. unfold plain. rewrite contains_cons, Hc. done.
Qed.

End Placeholder.

(** ** One dispatch *)

Import whatsapp_sender.

Section Dispatch.

Context (E : Env).

(** The call [send_message] makes in world [w]. *)
Lemma send_message_unfold phone_number message wait_time w :
  let number := ensure_country_code config.DEFAULT_COUNTRY_CODE phone_number in
  let rq := sendwhatmsg number message
              (two_minutes_ahead (now E w)).1 (two_minutes_ahead (now E w)).2
              (default config.WAIT_TIME wait_time) true (Some config.CLOSE_TIME) in
  let w1 := {| requests := requests w ++ [rq]; log_file := log_file w;
               slept := slept w |} in
  send_message E phone_number message wait_time w =
  match kit E w rq with
  | Returned => (true, log_message E number message "SUCCESS" w1)
  | Raised e => (false, log_message E number message ("FAILED: " +:+ e) w1)
  end.
Proof.
  unfold send_message, call.
  destruct (two_minutes_ahead (now E w)) as [h m]. simpl.
  by destruct (kit E w _).
Qed.

Lemma send_message_world phone_number message wait_time w ok w' :
  send_message E phone_number message wait_time w = (ok, w') →
  ∃ rq line,
    requests w' = requests w ++ [rq] ∧
    log_file w' = log_file w ++ [line] ∧
    slept w' = slept w ∧
    phone_no_of rq = ensure_country_code config.DEFAULT_COUNTRY_CODE phone_number ∧
    message_of rq = message ∧
    ok = bool_decide (kit E w rq = Returned) ∧
    ∃ t,
      line = log_entry (strftime t)
               (ensure_country_code config.DEFAULT_COUNTRY_CODE phone_number)
               (log_status (kit E w rq)) message.
Proof.
  rewrite send_message_unfold. cbv zeta.
  destruct (kit E w _) eqn:Hk; intros [= <- <-];
    eexists _, _; rewrite Hk; split_and!; try done; by eexists.
Qed.

Lemma prepare_sendable message personalize (row : Series) :
  sendable personalize row = true →
  ∃ p, row !! "phone" = Some p ∧
       prepare message personalize row =
         inr (display_name row, str p, text_for message personalize row).
Proof.
  unfold sendable, prepare, text_for, display_name.
  intros [Hp Hn]%andb_prop.
  apply bool_decide_eq_true in Hp as [p ->]. exists p. split; [done |].
  destruct personalize; [| done].
  by destruct (row !! "name") as [[n| |]|].
Qed.

Lemma pace_requests (c : bool) w :
  requests (if c then sleep 30 w else w) = requests w ∧
  log_file (if c then sleep 30 w else w) = log_file w.
Proof. by destruct c. Qed.

(** What the loop adds to the results and to the world when every
    remaining row is sendable: one detail entry, one call and one log line
    per row, in the order of the rows. *)
Lemma bulk_loop_spec message personalize total (rows : list Series) :
  Forall (λ row, sendable personalize row = true) rows →
  ∀ index results w r' w',
    bulk_loop E message personalize total index rows results w = (r', w') →
    ∃ ds rqs ls,
      details r' = details results ++ ds ∧
      requests w' = requests w ++ rqs ∧
      log_file w' = log_file w ++ ls ∧
      Forall2 detail_of rows ds ∧
      Forall2 (attempt_of message personalize) rows rqs ∧
      length ls = length rows ∧
      success r' + failed r' =
        success results + failed results + Z.of_nat (length rows) ∧
      success results <= success r' ∧
      failed results <= failed r'.
Proof.
  induction 1 as [|row rows Hrow Hrows IH]; intros index results w r' w' Hrun.
  - injection Hrun as <- <-. exists [], [], [].
    rewrite !app_nil_r. repeat split; try constructor; simpl; lia.
  - simpl in Hrun.
    destruct (prepare_sendable message _ _ Hrow) as (p & Hphone & Hp).
    rewrite Hp in Hrun.
    destruct (send_message E _ _ None w) as [ok w1] eqn:Hs.
    apply send_message_world
      in Hs as (rq & line & Hrq & Hlog & _ & Hph & Hm & _ & _).
    apply IH in Hrun
      as (ds & rqs & ls & Hd & Hr & Hl & Hds & Hrqs & Hls & Hsum & Hsu & Hfa).
    destruct (pace_requests (index <? total - 1) w1) as [Hpr Hpl].
    rewrite Hpr, Hrq in Hr. rewrite Hpl, Hlog in Hl. simpl in Hd, Hsum, Hsu, Hfa.
    eexists (_ :: ds), (rq :: rqs), (line :: ls).
    rewrite Hd, Hr, Hl, <- !(assoc_L (++)). simpl.
    split_and!; try done.
    + constructor; [| done]. unfold detail_of. simpl. rewrite Hphone.
      split_and!; [done | done |]. destruct ok; auto.
    + constructor; [| done]. unfold attempt_of. rewrite Hphone, Hph, Hm. done.
    + by rewrite Hls.
    + destruct ok; lia.
    + destruct ok; lia.
    + destruct ok; lia.
Qed.

End Dispatch.

(** ** A batch against scripted outcomes *)

Section Scripted.

Context (clock : World → datetime) (files : string → exn + list Series).

Lemma delivered_cons o outs :
  delivered (o :: outs) =
  (if bool_decide (o = Returned) then 1 else 0) + delivered outs.
Proof.
  unfold delivered. rewrite filter_cons.
  destruct (decide (o = Returned)) as [->|Hne].
  - rewrite bool_decide_eq_true_2 by done. simpl length. lia.
  - rewrite bool_decide_eq_false_2 by done. lia.
Qed.

Lemma delivered_bounds outs : 0 <= delivered outs <= Z.of_nat (length outs).
Proof.
  induction outs as [|o outs IH]; [done |].
  rewrite delivered_cons. simpl length. case_bool_decide; lia.
Qed.

Lemma status_of_decide o :
  (if bool_decide (o = Returned) then "success" else "failed") = status_of o.
Proof. by destruct o. Qed.

(** With outcomes [past ++ todo] scripted, [past] already consumed and one
    outcome left per remaining row, the loop records exactly the outcomes
    [todo], one after the other. *)
Lemma bulk_loop_scripted message personalize total (rows : list Series) :
  Forall (λ row, sendable personalize row = true) rows →
  ∀ todo past index results w r' w',
    length todo = length rows →
    length past = length (requests w) →
    bulk_loop (scripted clock files (past ++ todo)) message personalize total
      index rows results w = (r', w') →
    status <$> details r' = (status <$> details results) ++ (status_of <$> todo) ∧
    success r' = success results + delivered todo ∧
    failed r' = failed results + (Z.of_nat (length todo) - delivered todo) ∧
    ∃ ls, log_file w' = log_file w ++ ls ∧
          Forall2 (log_line_of message personalize) (zip rows todo) ls.
Proof.
  induction 1 as [|row rows Hrow Hrows IH];
    intros todo past index results w r' w' Htodo Hpast Hrun.
  - destruct todo; [| done]. injection Hrun as <- <-.
    simpl. rewrite app_nil_r. unfold delivered. simpl.
    split_and!; [done | lia.. |]. exists []. by rewrite app_nil_r.
  - destruct todo as [|o todo]; [done |]. simpl in Htodo, Hrun.
    destruct (prepare_sendable message _ _ Hrow) as (p & Hphone & Hp).
    rewrite Hp in Hrun.
    destruct (send_message _ _ _ None w) as [ok w1] eqn:Hs.
    apply send_message_world
      in Hs as (rq & line & Hrq & Hlog & _ & Hph & _ & Hok & t & Hline).
    simpl in Hok, Hline. rewrite list_lookup_middle in Hok, Hline by done.
    simpl in Hok, Hline.
    rewrite (cons_middle o past todo), (assoc_L (++)) in Hrun.
    apply IH in Hrun as (Hst & Hsu & Hfa & ls & Hls & Hlogged).
    + simpl in Hst, Hsu, Hfa. rewrite fmap_app in Hst. simpl in Hst.
      rewrite Hst, Hsu, Hfa, delivered_cons, <- (assoc_L (++)), Hok.
      simpl. rewrite status_of_decide.
      split_and!; [done | case_bool_decide; lia.. |].
      exists (line :: ls).
      destruct (pace_requests (index <? total - 1) w1) as [_ Hpl].
      rewrite Hls, Hpl, Hlog, <- (assoc_L (++)). split; [done |].
      constructor; [| done]. by exists t, p.
    + lia.
    + destruct (pace_requests (index <? total - 1) w1) as [-> _].
      rewrite Hrq, !length_app. simpl. lia.
Qed.

End Scripted.

(** The batch [A; B; C] from an empty world, message personalised: what is
    returned, what the channel was asked, what the log holds, and the two
    pauses of 30 seconds. *)
Example abc_run :
  send_bulk_messages (abc_env "session timeout") "contacts.csv"
    "Hello {name}!" true empty_world =
  ({| success := 2; failed := 1;
      details :=
        [{| name := CStr "A"; phone := "+911111111111"; status := "success" |};
         {| name := CStr "B"; phone := "9222222222"; status := "failed" |};
         {| name := CStr "C"; phone := "+913333333333"; status := "success" |}] |},
   {| requests :=
        [sendwhatmsg "+911111111111" "Hello A!" 12 2 15 true (Some 3);
         sendwhatmsg "+919222222222" "Hello B!" 12 2 15 true (Some 3);
         sendwhatmsg "+913333333333" "Hello C!" 12 2 15 true (Some 3)];
      log_file :=
        ["[2026-11-03 12:00:00] +911111111111 | SUCCESS | Hello A!..." +:+ newline;
         "[2026-11-03 12:00:00] +919222222222 | FAILED: session timeout | Hello B!..."
           +:+ newline;
         "[2026-11-03 12:00:00] +913333333333 | SUCCESS | Hello C!..." +:+ newline];
      slept := 60 |}).
Proof. by vm_compute. Qed.

(** ** Bulk runs *)

(** C1, as stated, fails on the batch [A; B; C] in which the channel
    raises "session timeout" for B: the detail entry of B has status
    "failed" and nowhere mentions the reason, and the whole result is the
    same whatever the reason was. *)
Lemma bulk_detail_carries_no_reason :
  let run reason :=
    (send_bulk_messages (abc_env reason) "contacts.csv" "Hello" false empty_world).1 in
  ¬ (∃ d, details (run "session timeout") !! 1%nat = Some d ∧
          Py.contains "session timeout" (status d) = true) ∧
  details (run "session timeout") !! 1%nat =
    Some {| name := CStr "B"; phone := "9222222222"; status := "failed" |} ∧
  run "session timeout" = run "connection lost".
Proof.
  split_and!.
  - intros (d & Hd & Hc). vm_compute in Hd. injection Hd as <-. by vm_compute in Hc.
  - by vm_compute.
  - by vm_compute.
Qed.

(** C1 (amended): for every sequence of recipients that each have a phone
    and, where the name is substituted, a text name or no name entry, and
    for every assignment of channel outcomes to them, the bulk run goes
    through the whole batch.  Each recipient gets a call into the channel,
    in order; the detail entries carry, in order, "success" for a delivery
    and "failed" for a failure (without the reason); the counters count
    the two kinds; and the log has one line per recipient, which names
    the phone, SUCCESS or FAILED with the reason, and the start of the
    text.  In particular, for A (delivered), B (fails with "session
    timeout") and C (delivered) the run returns 2 and 1, the entry of B
    is "failed", the reason stands in the log line of B and nowhere else,
    and C is called. *)
Theorem bulk_run_isolates_failures :
  (∀ (clock : World → datetime) (files : string → exn + list Series)
     (contacts_file message : string) (personalize : bool)
     (rows : list Series) (outs : list outcome) (r : Results) (w' : World),
     files contacts_file = inr rows →
     Forall (λ row, sendable personalize row = true) rows →
     length outs = length rows →
     send_bulk_messages (scripted clock files outs) contacts_file message
       personalize empty_world = (r, w') →
     status <$> details r = status_of <$> outs ∧
     success r = delivered outs ∧
     failed r = Z.of_nat (length rows) - delivered outs ∧
     Forall2 (attempt_of message personalize) rows (requests w') ∧
     Forall2 (log_line_of message personalize) (zip rows outs) (log_file w')) ∧
  send_bulk_messages (abc_env "session timeout") "contacts.csv"
    "Hello {name}!" true empty_world =
  ({| success := 2; failed := 1;
      details :=
        [{| name := CStr "A"; phone := "+911111111111"; status := "success" |};
         {| name := CStr "B"; phone := "9222222222"; status := "failed" |};
         {| name := CStr "C"; phone := "+913333333333"; status := "success" |}] |},
   {| requests :=
        [sendwhatmsg "+911111111111" "Hello A!" 12 2 15 true (Some 3);
         sendwhatmsg "+919222222222" "Hello B!" 12 2 15 true (Some 3);
         sendwhatmsg "+913333333333" "Hello C!" 12 2 15 true (Some 3)];
      log_file :=
        ["[2026-11-03 12:00:00] +911111111111 | SUCCESS | Hello A!..." +:+ newline;
         "[2026-11-03 12:00:00] +919222222222 | FAILED: session timeout | Hello B!..."
           +:+ newline;
         "[2026-11-03 12:00:00] +913333333333 | SUCCESS | Hello C!..." +:+ newline];
      slept := 60 |}).
Proof.
  split; [| by vm_compute].
  intros clock files contacts_file message personalize rows outs r w'
    Hfile Hrows Hlen Hrun.
  unfold send_bulk_messages in Hrun. simpl in Hrun. rewrite Hfile in Hrun.
  pose proof Hrun as Hrun'.
  apply bulk_loop_spec
    in Hrun' as (ds & rqs & ls & _ & Hr & _ & _ & Hrqs & _); [| done].
  apply (bulk_loop_scripted clock files message personalize _ rows Hrows outs [])
    in Hrun as (Hst & Hsu & Hfa & ls' & Hls & Hlogged); [| done..].
  simpl in Hr, Hls, Hst, Hsu, Hfa. rewrite Hr, Hls.
  split_and!; [done | lia | lia | done | done].
Qed.

Lemma bulk_run_isolates_failures_witness :
  let outs := [Returned; Raised "session timeout"; Returned] in
  let run :=
    send_bulk_messages (abc_env "session timeout") "contacts.csv" "Hello {name}!"
      true empty_world in
  one_file "contacts.csv" batch_abc "contacts.csv" = inr batch_abc ∧
  Forall (λ row, sendable true row = true) batch_abc ∧
  length outs = length batch_abc ∧
  status <$> details run.1 = ["success"; "failed"; "success"] ∧
  success run.1 = 2 ∧
  failed run.1 = 1 ∧
  Forall2 (attempt_of "Hello {name}!" true) batch_abc (requests run.2) ∧
  Forall2 (log_line_of "Hello {name}!" true) (zip batch_abc outs) (log_file run.2).
Proof.
  assert (Forall (λ row, sendable true row = true) batch_abc) as Hrows.
  { repeat (constructor; [by vm_compute |]). constructor. }
  pose proof (proj1 bulk_run_isolates_failures (λ _, noon)
                (one_file "contacts.csv" batch_abc) "contacts.csv" "Hello {name}!"
                true batch_abc [Returned; Raised "session timeout"; Returned]
                _ _ eq_refl Hrows eq_refl (surjective_pairing _))
    as (Hst & Hsu & Hfa & Hrq & Hlog).
  split_and!; done.
Defined.

(** C2: the table [A; blank name; C] has three recipients.  With
    [personalize] on and every delivery succeeding, the run returns one
    success, no failure and the one detail entry of A: the blank name is
    NaN, [replace] raises on it, and the handler of the run returns what
    had been recorded.  The counters add up to 1 and there is 1 detail
    entry, for 3 recipients. *)
Theorem bulk_results_after_blank_name :
  let r :=
    (send_bulk_messages blank_env "contacts.csv" "Hello {name}!" true
       empty_world).1 in
  read_csv blank_env "contacts.csv" = inr batch_blank ∧
  length batch_blank = 3%nat ∧
  r = {| success := 1; failed := 0;
         details := [{| name := CStr "A"; phone := "+911111111111";
                        status := "success" |}] |} ∧
  success r + failed r ≠ Z.of_nat (length batch_blank) ∧
  length (details r) ≠ length batch_blank.
Proof. by vm_compute. Qed.

(** When every row of the table can be processed (it has a phone and,
    where the name is substituted, a text name or no name entry), the
    counters add up to the number of rows and there is exactly one detail
    entry per row, in the order of the rows. *)
Lemma bulk_results_cover_recipients (E : Env)
    (contacts_file message : string) (personalize : bool)
    (rows : list Series) (w : World) (r : Results) (w' : World) :
  read_csv E contacts_file = inr rows →
  Forall (λ row, sendable personalize row = true) rows →
  send_bulk_messages E contacts_file message personalize w = (r, w') →
  success r + failed r = Z.of_nat (length rows) ∧
  0 <= success r ∧ 0 <= failed r ∧
  length (details r) = length rows ∧
  Forall2 detail_of rows (details r).
Proof.
  intros Hfile Hrows Hrun.
  unfold send_bulk_messages in Hrun. rewrite Hfile in Hrun.
  apply bulk_loop_spec in Hrun
    as (ds & rqs & ls & Hd & _ & _ & Hds & _ & _ & Hsum & Hsu & Hfa); [| done].
  simpl in Hd, Hsum, Hsu, Hfa. rewrite Hd.
  split_and!; [lia.. | | done].
  symmetry. by eapply Forall2_length.
Qed.

Lemma bulk_results_cover_recipients_witness :
  let E := abc_env "session timeout" in
  let run := send_bulk_messages E "contacts.csv" "Hello {name}!" true empty_world in
  read_csv E "contacts.csv" = inr batch_abc ∧
  Forall (λ row, sendable true row = true) batch_abc ∧
  success run.1 + failed run.1 = 3 ∧
  length (details run.1) = 3%nat ∧
  Forall2 detail_of batch_abc (details run.1).
Proof.
  assert (Forall (λ row, sendable true row = true) batch_abc) as Hrows.
  { repeat (constructor; [by vm_compute |]). constructor. }
  pose proof (bulk_results_cover_recipients (abc_env "session timeout")
                "contacts.csv" "Hello {name}!" true batch_abc empty_world
                _ _ eq_refl Hrows (surjective_pairing _))
    as (Hsum & _ & _ & Hlen & Hds).
  split_and!; done.
Defined.

(** C3: every call of [send_message] appends exactly one line to the log:
    the time stamp, the number, SUCCESS when the channel returned and
    FAILED with the reason when it raised, the first 50 characters of the
    message; and it returns the matching flag.  A bulk run does not gain
    one line per recipient, though: on the table [A; blank name; C] with
    [personalize] on and every delivery succeeding, the log gains the one
    line of A, for 3 recipients, and only A is called. *)
Theorem log_after_blank_name :
  (∀ (E : Env) phone_number message wait_time w,
     ∃ rq t,
       requests (send_message E phone_number message wait_time w).2 =
         requests w ++ [rq] ∧
       log_file (send_message E phone_number message wait_time w).2 =
         log_file w ++
         ["[" +:+ strftime t +:+ "] " +:+
          ensure_country_code config.DEFAULT_COUNTRY_CODE phone_number +:+
          " | " +:+ log_status (kit E w rq) +:+ " | " +:+
          Py.slice_to 50 message +:+ "..." +:+ newline] ∧
       (send_message E phone_number message wait_time w).1 =
         bool_decide (kit E w rq = Returned)) ∧
  let w' :=
    (send_bulk_messages blank_env "contacts.csv" "Hello {name}!" true
       empty_world).2 in
  read_csv blank_env "contacts.csv" = inr batch_blank ∧
  length batch_blank = 3%nat ∧
  log_file w' =
    ["[2026-11-03 12:00:00] +911111111111 | SUCCESS | Hello A!..." +:+ newline] ∧
  requests w' = [sendwhatmsg "+911111111111" "Hello A!" 12 2 15 true (Some 3)] ∧
  length (log_file w') ≠ length batch_blank.
Proof.
  split; [| by vm_compute].
  intros E phone_number message wait_time w.
  destruct (send_message E phone_number message wait_time w) as [ok w1] eqn:Hs.
  apply send_message_world
    in Hs as (rq & line & Hrq & Hlog & _ & Hph & _ & Hok & t & ->).
  by exists rq, t.
Qed.

(** C10: when [pd.read_csv] raises, [send_bulk_messages] does not raise;
    it returns the empty results (both counters 0, no detail entry) and
    leaves the world as it was: no call into the channel, no log line, no
    pause. *)
Theorem bulk_load_failure (E : Env) (contacts_file message : string)
    (personalize : bool) (w : World) (e : exn) :
  read_csv E contacts_file = inl e →
  send_bulk_messages E contacts_file message personalize w =
    ({| success := 0; failed := 0; details := [] |}, w).
Proof. intros Hfile. unfold send_bulk_messages. by rewrite Hfile. Qed.

Lemma bulk_load_failure_witness :
  let E := abc_env "session timeout" in
  read_csv E "missing.csv" = inl (Error "No such file or directory") ∧
  send_bulk_messages E "missing.csv" "Hello {name}!" true empty_world =
    ({| success := 0; failed := 0; details := [] |}, empty_world).
Proof.
  split; [done |].
  exact (bulk_load_failure (abc_env "session timeout") "missing.csv"
           "Hello {name}!" true empty_world _ eq_refl).
Defined.

(** ** The target time *)

Lemma minute_overflow (t : datetime) :
  59 < minute t + 2 →
  two_minutes_ahead t = (hour t + 1, minute t + 2 - 60).
Proof.
  intros H. unfold two_minutes_ahead.
  destruct (Z.geb_spec (minute t + 2) 60); [done | lia].
Qed.

Lemma minute_no_overflow (t : datetime) :
  minute t + 2 <= 59 →
  two_minutes_ahead t = (hour t, minute t + 2).
Proof.
  intros H. unfold two_minutes_ahead.
  destruct (Z.geb_spec (minute t + 2) 60); [lia | done].
Qed.

(** On a real clock the minute handed on is a minute of the hour, and the
    hour is 24 exactly in the last two minutes of the day. *)
Lemma two_minutes_ahead_range (t : datetime) :
  wall_clock t →
  0 <= (two_minutes_ahead t).2 < 60 ∧
  0 <= (two_minutes_ahead t).1 <= 24 ∧
  ((two_minutes_ahead t).1 = 24 ↔ hour t = 23 ∧ 58 <= minute t).
Proof.
  intros [Hh Hm]. unfold two_minutes_ahead.
  destruct (Z.geb_spec (minute t + 2) 60); simpl; lia.
Qed.

(** C4: one minute before midnight the rule "minute + 2 past 59: hour + 1,
    minute - 60" is what the code applies, and it yields hour 24, minute
    1, which is what [send_message] hands to the channel; the hour is not
    taken back to 0 of the next day. *)
Theorem two_minutes_ahead_before_midnight :
  wall_clock almost_midnight ∧
  two_minutes_ahead almost_midnight = (24, 1) ∧
  two_minutes_ahead almost_midnight ≠ (0, 1) ∧
  requests (send_message (scripted (λ _, almost_midnight) (λ _, inr []) [])
              "+919876543210" "Hi" None empty_world).2 =
    [sendwhatmsg "+919876543210" "Hi" 24 1 15 true (Some 3)].
Proof. split_and!; [by compute | done | done | by vm_compute]. Qed.

(** ** Phone numbers *)

(** C5: a number that starts with [+] is left as it is; any other number
    gets exactly the default prefix in front and nothing else is done to
    it.  The three senders pass the number so treated, with
    [config.DEFAULT_COUNTRY_CODE] as the prefix, to the channel. *)
Theorem country_code_normalisation (E : Env) (default_prefix raw : string) :
  (∀ rest, raw = "+" +:+ rest → ensure_country_code default_prefix raw = raw) ∧
  ((∀ rest, raw ≠ "+" +:+ rest) →
     ensure_country_code default_prefix raw = default_prefix +:+ raw) ∧
  (∀ message wait_time w,
     phone_no_of <$> requests (send_message E raw message wait_time w).2 =
       (phone_no_of <$> requests w) ++
       [ensure_country_code config.DEFAULT_COUNTRY_CODE raw]) ∧
  (∀ message w,
     phone_no_of <$> requests (send_instant_message E raw message w).2 =
       (phone_no_of <$> requests w) ++
       [ensure_country_code config.DEFAULT_COUNTRY_CODE raw]) ∧
  (∀ message h m w,
     phone_no_of <$> requests (scheduler.schedule_message E raw message h m w).2 =
       (phone_no_of <$> requests w) ++
       [ensure_country_code config.DEFAULT_COUNTRY_CODE raw]).
Proof.
  split_and!.
  - intros rest ->. done.
  - intros Hno. unfold ensure_country_code.
    destruct (Py.startswith raw "+") eqn:Hs; [| done].
    apply startswith_inv in Hs as [rest ->]. by destruct (Hno rest).
  - intros message wait_time w. rewrite send_message_unfold. cbv zeta.
    destruct (kit E w _); simpl; by rewrite fmap_app.
  - intros message w. unfold send_instant_message, call.
    destruct (kit E w _); simpl; by rewrite fmap_app.
  - intros message h m w. unfold scheduler.schedule_message, call.
    destruct (kit E w _); simpl; by rewrite fmap_app.
Qed.

Lemma country_code_normalisation_witness :
  ensure_country_code "+91" "+447911123456" = "+447911123456" ∧
  (∀ rest, "9876543210" ≠ "+" +:+ rest) ∧
  ensure_country_code "+91" "9876543210" = "+919876543210" ∧
  ensure_country_code "+91" EmptyString = "+91".
Proof.
  assert (∀ s rest, Py.startswith s "+" = false → s ≠ "+" +:+ rest) as Hno.
  { intros s rest Hs ->. by rewrite startswith_app in Hs. }
  split_and!.
  - exact (proj1 (country_code_normalisation (abc_env "none") "+91" "+447911123456")
             "447911123456" eq_refl).
  - intros rest. by apply Hno.
  - apply (proj1 (proj2 (country_code_normalisation (abc_env "none") "+91" "9876543210"))).
    intros rest. by apply Hno.
  - apply (proj1 (proj2 (country_code_normalisation (abc_env "none") "+91" EmptyString))).
    intros rest. by apply Hno.
Defined.

(** ** Personalisation *)

(** C6: a recipient whose name is blank has the name NaN in its row, and
    the fallback does not apply to it.  With [personalize] off its display
    name, in the detail entry, is NaN and not "Friend".  With
    [personalize] on nothing is substituted: [replace] raises a
    [TypeError], the recipient is not called, and neither is anyone after
    it. *)
Theorem blank_name_is_not_friend :
  let row := blank_name "+912222222222" in
  let off :=
    send_bulk_messages blank_env "contacts.csv" "Hello {name}!" false empty_world in
  let on :=
    send_bulk_messages blank_env "contacts.csv" "Hello {name}!" true empty_world in
  row !! "name" = Some CNaN ∧
  prepare "Hello {name}!" false row = inr (CNaN, "+912222222222", "Hello {name}!") ∧
  prepare "Hello {name}!" true row =
    inl (TypeError "replace() argument 2 must be str") ∧
  name <$> details off.1 = [CStr "A"; CNaN; CStr "C"] ∧
  message_of <$> requests off.2 = ["Hello {name}!"; "Hello {name}!"; "Hello {name}!"] ∧
  name <$> details on.1 = [CStr "A"] ∧
  requests on.2 = [sendwhatmsg "+911111111111" "Hello A!" 12 2 15 true (Some 3)].
Proof. by vm_compute. Qed.

(** For a row the loop body can process (it has a phone and, where the
    name is substituted, a text name or no name entry): the display name
    is the row's [name] entry when the row has one and "Friend" when it
    has none; it is the name of the detail entry.  With [personalize] on,
    the text the channel is called with is the template with every
    [{name}] replaced by that name: cut the template at its placeholders
    and the text is the same pieces with the name in between.  With
    [personalize] off the channel is called with the template itself. *)
Lemma display_name_and_substitution (E : Env) (message : string)
    (personalize : bool) (row : Series) (total index : Z) (results : Results)
    (w : World) :
  sendable personalize row = true →
  ∃ rq d,
    requests (bulk_loop E message personalize total index [row] results w).2 =
      requests w ++ [rq] ∧
    details (bulk_loop E message personalize total index [row] results w).1 =
      details results ++ [d] ∧
    name d = match row !! "name" with Some v => v | None => CStr "Friend" end ∧
    if personalize
    then ∃ n, name d = CStr n ∧
           message_of rq = Py.replace message "{name}" n ∧
           ∀ pieces, Forall plain pieces →
                     message = Py.join "{name}" pieces →
                     message_of rq = Py.join n pieces
    else message_of rq = message.
Proof.
  intros Hrow.
  destruct (prepare_sendable message _ _ Hrow) as (p & Hphone & Hp).
  simpl. rewrite Hp.
  destruct (send_message E _ _ None w) as [ok w1] eqn:Hs.
  apply send_message_world in Hs as (rq & line & Hrq & _ & _ & _ & Hm & _).
  destruct (pace_requests (index <? total - 1) w1) as [Hpr _].
  eexists rq, _. simpl. rewrite Hpr, Hrq, Hm.
  split_and!; [done | done | done |].
  destruct personalize; [| done].
  apply andb_prop in Hrow as [_ Hname]. simpl in Hname.
  unfold text_for, display_name in *.
  destruct (row !! "name") as [[n| |]|]; try done.
  - exists n. split_and!; [done.. |]. intros pieces Hpieces ->. by apply replace_join.
  - exists "Friend". split_and!; [done.. |].
    intros pieces Hpieces ->. by apply replace_join.
Qed.

Lemma display_name_and_substitution_witness :
  let E := abc_env "session timeout" in
  let row := contact "Asha" "9876543210" in
  let template := "Hi {name}, your order is ready, {name}!" in
  sendable true row = true ∧
  ∃ rq d,
    requests (bulk_loop E template true 1 0 [row] no_results empty_world).2 = [rq] ∧
    details (bulk_loop E template true 1 0 [row] no_results empty_world).1 = [d] ∧
    name d = CStr "Asha" ∧
    message_of rq = Py.join "Asha" ["Hi "; ", your order is ready, "; "!"].
Proof.
  split; [by vm_compute |].
  destruct (display_name_and_substitution (abc_env "session timeout")
              "Hi {name}, your order is ready, {name}!" true
              (contact "Asha" "9876543210") 1 0 no_results empty_world eq_refl)
    as (rq & d & Hrq & Hd & Hname & n & Hn & _ & Hcut).
  exists rq, d. split_and!; [done | done | done |].
  rewrite Hname in Hn. injection Hn as <-.
  apply Hcut; [| done]. repeat (constructor; [by vm_compute |]). constructor.
Defined.

(** C9: on a message with no [{name}] left in it the substitution changes
    nothing, whatever the name; in particular a second pass over an
    already substituted message that has no placeholder left returns it as
    it is. *)
Theorem substitution_without_placeholder (message n : string) :
  plain message →
  Py.replace message "{name}" n = message ∧
  replace_name message (CStr n) = inr message.
Proof.
  intros Hplain. unfold replace_name, Py.replace.
  by rewrite replace_from_absent.
Qed.

Lemma substitution_without_placeholder_witness :
  let once := Py.replace "Hi {name}, bye {name}" "{name}" "Asha" in
  once = "Hi Asha, bye Asha" ∧
  plain once ∧
  Py.replace once "{name}" "Asha" = once.
Proof.
  split_and!; [done | done |].
  exact (proj1 (substitution_without_placeholder
                  (Py.replace "Hi {name}, bye {name}" "{name}" "Asha") "Asha" eq_refl)).
Defined.

(** ** The contacts table *)

Section Contacts.

Import contact_manager.

Implicit Types rows df : list Contact.

Lemma drop_duplicates_last_sublist rows :
  drop_duplicates_last rows `sublist_of` rows.
Proof.
  induction rows as [|r rest IH]; simpl; [constructor |].
  case_decide; by constructor.
Qed.

Lemma drop_duplicates_last_subset rows c :
  c ∈ drop_duplicates_last rows → c ∈ rows.
Proof. apply sublist_subseteq, drop_duplicates_last_sublist. Qed.

(** No phone of the table is lost. *)
Lemma drop_duplicates_last_phones rows p :
  p ∈ phone <$> drop_duplicates_last rows ↔ p ∈ phone <$> rows.
Proof.
  split.
  - intros (c & -> & Hc)%list_elem_of_fmap.
    by apply list_elem_of_fmap_2, drop_duplicates_last_subset.
  - induction rows as [|r rest IH]; [done |].
    rewrite fmap_cons, elem_of_cons. simpl. intros [-> | Hp].
    + case_decide; [by apply IH |]. rewrite fmap_cons. by left.
    + case_decide; [by apply IH |]. rewrite fmap_cons. right. by apply IH.
Qed.

(** Afterwards every phone occurs once. *)
Lemma drop_duplicates_last_NoDup rows :
  NoDup (phone <$> drop_duplicates_last rows).
Proof.
  induction rows as [|r rest IH]; simpl; [constructor |].
  case_decide as Hin; [done |].
  rewrite fmap_cons. constructor; [| done].
  by rewrite drop_duplicates_last_phones.
Qed.

(** The rows kept are exactly the last rows of their phones. *)
Lemma drop_duplicates_last_keeps rows c :
  c ∈ drop_duplicates_last rows ↔
  ∃ pre post, rows = pre ++ c :: post ∧ phone c ∉ phone <$> post.
Proof.
  split.
  - induction rows as [|r rest IH]; simpl; [by intros ?%elem_of_nil |].
    case_decide as Hin.
    + intros (pre & post & -> & Hc)%IH. by exists (r :: pre), post.
    + intros [-> | (pre & post & -> & Hc)%IH]%elem_of_cons.
      * by exists [], rest.
      * by exists (r :: pre), post.
  - intros (pre & post & -> & Hc).
    induction pre as [|r pre IH]; simpl.
    + rewrite decide_False by done. by left.
    + case_decide; [done |]. by right.
Qed.

(** C7: importing a sheet leaves one row per phone, namely the last row
    with that phone in the old table followed by the sheet, in the old
    order, and every phone is still there; adding a contact by hand
    appends a row whatever the table holds, so a phone that was there
    already is there twice afterwards.  Both write the table to disk. *)
Theorem import_dedups_add_appends
    (read_excel : string → exn + list Contact) (excel_path : string)
    (self : ContactManager) (disk : Disk) (df : list Contact)
    (name_ phone_ group_ : string) :
  read_excel excel_path = inr df →
  let imported := import_from_excel read_excel excel_path self disk in
  let added := add_contact name_ phone_ group_ self disk in
  NoDup (phone <$> contacts imported.1) ∧
  (∀ c, c ∈ contacts imported.1 ↔
        ∃ pre post, contacts self ++ df = pre ++ c :: post ∧
                    phone c ∉ phone <$> post) ∧
  (∀ p, p ∈ phone <$> contacts imported.1 ↔ p ∈ phone <$> (contacts self ++ df)) ∧
  contacts imported.1 `sublist_of` contacts self ++ df ∧
  imported.2 !! file_path self = Some (contacts imported.1) ∧
  contacts added.1 =
    contacts self ++
    [{| name := CStr name_; phone := CStr phone_; group := CStr group_ |}] ∧
  (CStr phone_ ∈ phone <$> contacts self → ¬ NoDup (phone <$> contacts added.1)) ∧
  added.2 !! file_path self = Some (contacts added.1).
Proof.
  intros Hread imported added. subst imported added.
  unfold import_from_excel, add_contact, save_contacts. rewrite Hread. simpl.
  split_and!.
  - apply drop_duplicates_last_NoDup.
  - apply drop_duplicates_last_keeps.
  - apply drop_duplicates_last_phones.
  - apply drop_duplicates_last_sublist.
  - apply lookup_insert_eq.
  - done.
  - intros Hin Hnodup. rewrite fmap_app in Hnodup.
    apply NoDup_app in Hnodup as (_ & Hdisj & _).
    apply (Hdisj _ Hin). simpl. by left.
  - apply lookup_insert_eq.
Qed.

Lemma import_dedups_add_appends_witness :
  let read_excel := one_sheet "new.xlsx" [asha_renamed] in
  let self := {| file_path := "contacts.csv"; contacts := [asha; bina] |} in
  read_excel "new.xlsx" = inr [asha_renamed] ∧
  contacts (import_from_excel read_excel "new.xlsx" self ∅).1 =
    [bina; asha_renamed] ∧
  NoDup (phone <$> contacts (import_from_excel read_excel "new.xlsx" self ∅).1) ∧
  contacts (add_contact "Asha K" "+919876543210" "work" self ∅).1 =
    [asha; bina; asha_renamed] ∧
  ¬ NoDup (phone <$> contacts (add_contact "Asha K" "+919876543210" "work" self ∅).1).
Proof.
  pose proof (import_dedups_add_appends (one_sheet "new.xlsx" [asha_renamed])
                "new.xlsx" {| file_path := "contacts.csv"; contacts := [asha; bina] |}
                ∅ [asha_renamed] "Asha K" "+919876543210" "work" eq_refl)
    as (Hnodup & _ & _ & _ & _ & Hadd & Hdup & _).
  split_and!; [done | done | exact Hnodup | exact Hadd |].
  apply Hdup. simpl. by left.
Defined.

End Contacts.

(** ** Off the main path *)

Section Elsewhere.

Context (E : Env).

(** A row outside the data model (no phone entry, or a name that is not
    text while the name goes into the message) makes the loop body raise
    before anything is sent; the handler of [send_bulk_messages] then
    returns what was accumulated, and the rows after it are not reached. *)
Lemma bulk_loop_stops_at_unsendable message personalize total index
    (row : Series) (rest : list Series) results w :
  sendable personalize row = false →
  bulk_loop E message personalize total index (row :: rest) results w =
  (results, w).
Proof.
  unfold sendable. simpl. unfold prepare. intros H.
  destruct (row !! "phone") as [p|]; [| done].
  rewrite bool_decide_eq_true_2 in H by eauto. simpl in H.
  destruct personalize; [| done].
  by destruct (row !! "name") as [[]|].
Qed.

(** The two other senders call the channel once and write nothing to the
    log. *)
Lemma other_senders_do_not_log phone_number message h m w :
  log_file (send_instant_message E phone_number message w).2 = log_file w ∧
  log_file (scheduler.schedule_message E phone_number message h m w).2 = log_file w.
Proof.
  unfold send_instant_message, scheduler.schedule_message, call.
  by destruct (kit E w _), (kit E w _).
Qed.

(** The recurring job calls the channel once for the current hour and the
    current minute plus two (not carried into the hour), and returns
    [None] whether or not the channel raised. *)
Lemma job_effect phone_number message w :
  scheduler.job E phone_number message w =
  (tt, {| requests := requests w ++
            [sendwhatmsg (ensure_country_code config.DEFAULT_COUNTRY_CODE phone_number)
               message (hour (now E w)) (minute (now E w) + 2)
               config.WAIT_TIME true None];
          log_file := log_file w; slept := slept w |}).
Proof.
  unfold scheduler.job, scheduler.schedule_message, call.
  by destruct (kit E w _).
Qed.

End Elsewhere.

(** * Further properties of the code *)

(** ** Bulk runs on any table *)

Section AnyTable.

Context (E : Env).

(** The details counted by status. *)
Lemma bulk_loop_prefix message personalize total (rows : list Series) :
  ∀ index results w r' w',
    bulk_loop E message personalize total index rows results w = (r', w') →
    ∃ ds rqs ls,
      details r' = details results ++ ds ∧
      requests w' = requests w ++ rqs ∧
      log_file w' = log_file w ++ ls ∧
      Forall2 detail_of (sendable_prefix personalize rows) ds ∧
      Forall2 (attempt_of message personalize) (sendable_prefix personalize rows) rqs ∧
      length ls = length ds ∧
      success r' =
        success results +
        Z.of_nat (length (filter (λ d, status d = "success") ds)) ∧
      failed r' =
        failed results +
        Z.of_nat (length (filter (λ d, status d = "failed") ds)).
Proof.
  induction rows as [|row rows IH]; intros index results w r' w' Hrun.
  - injection Hrun as <- <-. exists [], [], [].
    rewrite !app_nil_r. simpl. split_and!; try constructor; lia.
  - cbn [sendable_prefix]. destruct (sendable personalize row) eqn:Hrow.
    + simpl in Hrun.
      destruct (prepare_sendable message _ _ Hrow) as (p & Hphone & Hp).
      rewrite Hp in Hrun.
      destruct (send_message E _ _ None w) as [ok w1] eqn:Hs.
      apply send_message_world
        in Hs as (rq & line & Hrq & Hlog & _ & Hph & Hm & _ & _).
      apply IH in Hrun
        as (ds & rqs & ls & Hd & Hr & Hl & Hds & Hrqs & Hls & Hsu & Hfa).
      destruct (pace_requests (index <? total - 1) w1) as [Hpr Hpl].
      rewrite Hpr, Hrq in Hr. rewrite Hpl, Hlog in Hl. simpl in Hd, Hsu, Hfa.
      eexists (_ :: ds), (rq :: rqs), (line :: ls).
      rewrite Hd, Hr, Hl, <- !(assoc_L (++)). simpl.
      split_and!; try done.
      * constructor; [| done]. unfold detail_of. simpl. rewrite Hphone.
        split_and!; [done | done |]. destruct ok; auto.
      * constructor; [| done]. unfold attempt_of. by rewrite Hphone, Hph, Hm.
      * by rewrite Hls.
      * rewrite Hsu, filter_cons. simpl. destruct ok.
        -- rewrite decide_True by done. simpl length. lia.
        -- rewrite decide_False by done. lia.
      * rewrite Hfa, filter_cons. simpl. destruct ok.
        -- rewrite decide_False by done. lia.
        -- rewrite decide_True by done. simpl length. lia.
    + rewrite bulk_loop_stops_at_unsendable in Hrun by done.
      injection Hrun as <- <-. exists [], [], [].
      rewrite !app_nil_r. simpl. split_and!; try constructor; lia.
Qed.

(** The seconds slept: a pause after every processed row that is not the
    last row of the table. *)
Lemma bulk_loop_slept message personalize total (rows : list Series) :
  ∀ index results w,
    0 <= index →
    index + Z.of_nat (length rows) = total →
    slept (bulk_loop E message personalize total index rows results w).2 =
    slept w +
    30 * Z.min (Z.of_nat (length (sendable_prefix personalize rows)))
               (Z.max 0 (total - 1 - index)).
Proof.
  induction rows as [|row rows IH]; intros index results w Hindex Htotal.
  - simpl. lia.
  - cbn [sendable_prefix]. destruct (sendable personalize row) eqn:Hrow.
    + simpl.
      destruct (prepare_sendable message _ _ Hrow) as (p & Hphone & Hp).
      rewrite Hp.
      destruct (send_message E _ _ None w) as [ok w1] eqn:Hs.
      apply send_message_world in Hs as (rq & line & _ & _ & Hsl & _).
      simpl length in Htotal. rewrite IH by lia.
      destruct (Z.ltb_spec index (total - 1)); simpl; lia.
    + rewrite bulk_loop_stops_at_unsendable by done. simpl. lia.
Qed.

End AnyTable.

(** X1: whatever the table holds, a bulk run processes exactly the rows
    before the first one the loop body cannot process (no phone entry, or
    a name that is not text while the name is substituted): each of them
    gets its detail entry, its call into the channel and its log line, in
    order, and no later row gets any.  The two counters always equal the
    numbers of "success" and of "failed" detail entries. *)
Theorem bulk_run_is_consistent (E : Env) (contacts_file message : string)
    (personalize : bool) (rows : list Series) (w : World)
    (r : Results) (w' : World) :
  read_csv E contacts_file = inr rows →
  send_bulk_messages E contacts_file message personalize w = (r, w') →
  Forall2 detail_of (sendable_prefix personalize rows) (details r) ∧
  (∃ rqs ls,
     requests w' = requests w ++ rqs ∧
     log_file w' = log_file w ++ ls ∧
     Forall2 (attempt_of message personalize) (sendable_prefix personalize rows) rqs ∧
     length ls = length rqs) ∧
  success r = Z.of_nat (length (filter (λ d, status d = "success") (details r))) ∧
  failed r = Z.of_nat (length (filter (λ d, status d = "failed") (details r))) ∧
  success r + failed r = Z.of_nat (length (details r)).
Proof.
  intros Hfile Hrun. unfold send_bulk_messages in Hrun. rewrite Hfile in Hrun.
  apply bulk_loop_prefix in Hrun
    as (ds & rqs & ls & Hd & Hr & Hl & Hds & Hrqs & Hls & Hsu & Hfa).
  simpl in Hd, Hsu, Hfa. subst ds.
  split_and!; [done | | done | done |].
  - exists rqs, ls. split_and!; [done.. |].
    rewrite Hls. apply Forall2_length in Hds, Hrqs. congruence.
  - rewrite Hsu, Hfa. clear -Hds.
    induction Hds as [|row d good ds (_ & _ & Hst) _ IH]; [done |].
    rewrite !filter_cons. simpl length.
    destruct Hst as [Hst | Hst]; rewrite Hst; simpl; lia.
Qed.

Lemma bulk_run_is_consistent_witness :
  let table := [contact "A" "+911"; blank_name "+912"; contact "C" "+913"] in
  let E := scripted (λ _, noon) (one_file "contacts.csv" table) [] in
  let run := send_bulk_messages E "contacts.csv" "Hi {name}" true empty_world in
  read_csv E "contacts.csv" = inr table ∧
  sendable_prefix true table = [contact "A" "+911"] ∧
  Forall2 detail_of [contact "A" "+911"] (details run.1) ∧
  success run.1 + failed run.1 = 1.
Proof.
  pose proof (bulk_run_is_consistent
                (scripted (λ _, noon)
                   (one_file "contacts.csv"
                      [contact "A" "+911"; blank_name "+912"; contact "C" "+913"]) [])
                "contacts.csv" "Hi {name}" true
                [contact "A" "+911"; blank_name "+912"; contact "C" "+913"]
                empty_world _ _ eq_refl (surjective_pairing _))
    as (Hds & _ & _ & _ & Hsum).
  split_and!; [done | by vm_compute | exact Hds | exact Hsum].
Defined.

(** X2: a bulk run sleeps 30 seconds after every row it processes except
    the last row of the table: over a table of N rows of which the first
    k are processed, it sleeps 30 * min(k, N - 1) seconds (nothing for an
    empty table), so N - 1 pauses when the whole table is processed. *)
Theorem bulk_run_pauses (E : Env) (contacts_file message : string)
    (personalize : bool) (rows : list Series) (w : World) :
  read_csv E contacts_file = inr rows →
  slept (send_bulk_messages E contacts_file message personalize w).2 =
  slept w +
  30 * Z.min (Z.of_nat (length (sendable_prefix personalize rows)))
             (Z.max 0 (Z.of_nat (length rows) - 1)).
Proof.
  intros Hfile. unfold send_bulk_messages. rewrite Hfile.
  rewrite bulk_loop_slept by lia. f_equal. f_equal. f_equal. lia.
Qed.

Lemma bulk_run_pauses_witness :
  let E := abc_env "session timeout" in
  read_csv E "contacts.csv" = inr batch_abc ∧
  slept (send_bulk_messages E "contacts.csv" "Hello" false empty_world).2 = 60.
Proof.
  split; [done |].
  exact (bulk_run_pauses (abc_env "session timeout") "contacts.csv" "Hello"
           false batch_abc empty_world eq_refl).
Defined.

(** ** Numbers and times handed to the channel *)

(** X3: every number the program hands to pywhatkit starts with [+]:
    ensuring the country code with [config.DEFAULT_COUNTRY_CODE] yields a
    number that starts with [+] and that a second pass leaves alone, and
    each call made by [send_message], [send_instant_message],
    [schedule_message] and a whole bulk run carries such a number. *)
Theorem numbers_handed_on_start_with_plus (E : Env) (raw message : string)
    (wait_time : option Z) (h m : Z) (contacts_file : string)
    (personalize : bool) (w : World) :
  let ensured := ensure_country_code config.DEFAULT_COUNTRY_CODE in
  let plus rq := Py.startswith (phone_no_of rq) "+" = true in
  Py.startswith (ensured raw) "+" = true ∧
  ensured (ensured raw) = ensured raw ∧
  (∃ rq, requests (send_message E raw message wait_time w).2 = requests w ++ [rq] ∧
         plus rq) ∧
  (∃ rq, requests (send_instant_message E raw message w).2 = requests w ++ [rq] ∧
         plus rq) ∧
  (∃ rq, requests (scheduler.schedule_message E raw message h m w).2 =
           requests w ++ [rq] ∧
         plus rq) ∧
  (∃ rqs, requests (send_bulk_messages E contacts_file message personalize w).2 =
            requests w ++ rqs ∧
          Forall plus rqs).
Proof.
  intros ensured plus.
  assert (∀ x, Py.startswith (ensured x) "+" = true) as Hplus.
  { intros x. unfold ensured, ensure_country_code.
    by destruct (Py.startswith x "+") eqn:Hx. }
  split_and!.
  - apply Hplus.
  - unfold ensured at 1. unfold ensure_country_code. by rewrite Hplus.
  - rewrite send_message_unfold. cbv zeta.
    destruct (kit E w _); eexists; (split; [done |]); apply Hplus.
  - unfold send_instant_message, call.
    destruct (kit E w _); eexists; (split; [done |]); apply Hplus.
  - unfold scheduler.schedule_message, call.
    destruct (kit E w _); eexists; (split; [done |]); apply Hplus.
  - unfold send_bulk_messages.
    destruct (read_csv E contacts_file) as [e | rows].
    { exists []. by rewrite app_nil_r. }
    destruct (bulk_loop _ _ _ _ _ _ _ _) as [r w'] eqn:Hrun.
    apply bulk_loop_prefix in Hrun as (ds & rqs & ls & _ & Hr & _ & _ & Hrqs & _).
    exists rqs. split; [done |].
    clear -Hrqs Hplus. induction Hrqs as [|row rq good rqs [Hph _] _ IH]; constructor; [| done].
    unfold plus. destruct (row !! "phone") as [p|]; [| done].
    injection Hph as ->. apply Hplus.
Qed.

(** X4: on a real clock the hour and minute handed to the channel are two
    minutes after the reading, counted in minutes since midnight; the
    minute is a minute of the hour and the hour is the reading's or the
    next. *)
Theorem two_minutes_ahead_adds_two_minutes (t : datetime) :
  wall_clock t →
  60 * (two_minutes_ahead t).1 + (two_minutes_ahead t).2 =
    60 * hour t + minute t + 2 ∧
  0 <= (two_minutes_ahead t).2 < 60 ∧
  hour t <= (two_minutes_ahead t).1 <= hour t + 1.
Proof.
  intros [Hh Hm]. unfold two_minutes_ahead.
  destruct (Z.geb_spec (minute t + 2) 60); simpl; lia.
Qed.

Lemma two_minutes_ahead_adds_two_minutes_witness :
  wall_clock noon ∧
  60 * (two_minutes_ahead noon).1 + (two_minutes_ahead noon).2 = 60 * 12 + 0 + 2.
Proof.
  assert (wall_clock noon) as H by (by compute).
  split; [exact H |].
  exact (proj1 (two_minutes_ahead_adds_two_minutes noon H)).
Defined.

(** ** The recurring job *)

(** X6: the job of the daily and weekly schedules asks the channel for
    the current hour and the current minute plus two without carrying
    into the hour.  On a real clock its request names the time
    [send_message] would name exactly when the minute is at most 57; in
    the last two minutes of an hour it asks for minute 60 or 61.  It
    writes no log line. *)
Theorem recurring_job_does_not_carry (E : Env) (phone_number message : string)
    (w : World) :
  wall_clock (now E w) →
  ∃ h m,
    requests (scheduler.job E phone_number message w).2 =
      requests w ++
      [sendwhatmsg (ensure_country_code config.DEFAULT_COUNTRY_CODE phone_number)
         message h m config.WAIT_TIME true None] ∧
    h = hour (now E w) ∧
    m = minute (now E w) + 2 ∧
    ((h, m) = two_minutes_ahead (now E w) ↔ minute (now E w) <= 57) ∧
    (m < 60 ↔ minute (now E w) <= 57) ∧
    log_file (scheduler.job E phone_number message w).2 = log_file w.
Proof.
  intros [Hh Hm]. rewrite job_effect. simpl.
  eexists _, _. split_and!; [done | done | done | | lia | done].
  unfold two_minutes_ahead.
  destruct (Z.geb_spec (minute (now E w) + 2) 60); split; intros Heq.
  - injection Heq. lia.
  - lia.
  - lia.
  - done.
Qed.

Lemma recurring_job_does_not_carry_witness :
  let E := scripted (λ _, almost_midnight) (λ _, inr []) [] in
  wall_clock (now E empty_world) ∧
  requests (scheduler.job E "9876543210" "Hi" empty_world).2 =
    [sendwhatmsg "+919876543210" "Hi" 23 61 15 true None].
Proof.
  assert (wall_clock almost_midnight) as H by (by compute).
  split; [exact H |].
  destruct (recurring_job_does_not_carry
              (scripted (λ _, almost_midnight) (λ _, inr []) [])
              "9876543210" "Hi" empty_world H)
    as (h & m & Hrq & -> & -> & _).
  exact Hrq.
Defined.

(** ** The menu *)

Lemma lower_char_is_y (c : ascii) :
  terminal.lower_char c = "y"%char ↔ c = "y"%char ∨ c = "Y"%char.
Proof.
  destruct c as [[] [] [] [] [] [] [] []]; vm_compute;
    (split; [intros [=]; auto | intros [[=] | [=]]; done]).
Qed.

Lemma lower_is_y (s : string) :
  terminal.lower s = "y" ↔ s = "y" ∨ s = "Y".
Proof.
  destruct s as [|c [|c' s]]; simpl.
  - split; [done | by intros [|]].
  - split.
    + intros [= Hc]. apply lower_char_is_y in Hc as [-> | ->]; auto.
    + intros [[= ->] | [= ->]]; done.
  - split; [done | by intros [|]].
Qed.

(** X7: the menu of [whatsapp_sender.py].  Choice 1 (blanks around it
    ignored) sends the typed message to the typed number, both stripped.
    Choice 2 runs a bulk send over the typed path, or over
    [config.CONTACTS_FILE] when the path is blank, and substitutes names
    exactly when the last answer is the single letter y or Y (the answer
    is not stripped, and "yes" does not count).  Any other choice leaves
    the world untouched. *)
Theorem menu_dispatch (E : Env) (choice : string) (w : World) :
  (terminal.strip choice = "1" →
   ∀ phone message more,
     terminal.main E (choice :: phone :: message :: more) w =
     inr (send_message E (terminal.strip phone) (terminal.strip message) None w).2) ∧
  (terminal.strip choice = "2" →
   ∀ file_path message answer more,
     terminal.main E (choice :: file_path :: message :: answer :: more) w =
     inr (send_bulk_messages E
            (if decide (terminal.strip file_path = EmptyString)
             then "contacts.csv" else terminal.strip file_path)
            (terminal.strip message)
            (bool_decide (answer = "y" ∨ answer = "Y")) w).2) ∧
  (terminal.strip choice ≠ "1" → terminal.strip choice ≠ "2" →
   ∀ more, terminal.main E (choice :: more) w = inr w).
Proof.
  split_and!.
  - intros Hc phone message more. unfold terminal.main.
    by rewrite Hc, decide_True.
  - intros Hc file_path message answer more. unfold terminal.main.
    rewrite Hc, decide_False, decide_True by done.
    by rewrite (bool_decide_ext _ _ (lower_is_y answer)).
  - intros H1 H2 more. unfold terminal.main.
    by rewrite decide_False, decide_False.
Qed.

Lemma menu_dispatch_witness :
  let E := abc_env "session timeout" in
  terminal.strip " 2 " = "2" ∧
  terminal.main E [" 2 "; "  "; "Hello {name}!"; "yes"] empty_world =
    inr (send_bulk_messages E "contacts.csv" "Hello {name}!" false empty_world).2 ∧
  terminal.strip "3" ≠ "1" ∧ terminal.strip "3" ≠ "2" ∧
  terminal.main E ["3"] empty_world = inr empty_world ∧
  terminal.strip "1" = "1" ∧
  terminal.main E ["1"; " 9876543210 "; "Hi"] empty_world =
    inr (send_message E "9876543210" "Hi" None empty_world).2.
Proof.
  assert (terminal.strip "3" ≠ "1") as H1 by done.
  assert (terminal.strip "3" ≠ "2") as H2 by done.
  split_and!; [done | | done | done | | done |].
  - exact (proj1 (proj2 (menu_dispatch (abc_env "session timeout") " 2 " empty_world))
             eq_refl "  " "Hello {name}!" "yes" []).
  - exact (proj2 (proj2 (menu_dispatch (abc_env "session timeout") "3" empty_world))
             H1 H2 []).
  - exact (proj1 (menu_dispatch (abc_env "session timeout") "1" empty_world)
             eq_refl " 9876543210 " "Hi" []).
Defined.

(** ** More on the contacts table *)

Section Table.

Import contact_manager.

Implicit Types rows df : list Contact.

Lemma drop_duplicates_last_id rows :
  NoDup (phone <$> rows) → drop_duplicates_last rows = rows.
Proof.
  induction rows as [|r rest IH]; [done |].
  rewrite fmap_cons. intros [Hr Hrest]%NoDup_cons. simpl.
  rewrite decide_False by done. by rewrite IH.
Qed.

(** Rows of the first part survive when no row of the second has their
    phone. *)
Lemma drop_duplicates_last_app rows df :
  drop_duplicates_last (rows ++ df) =
  filter (λ c, phone c ∉ phone <$> df) (drop_duplicates_last rows) ++
  drop_duplicates_last df.
Proof.
  induction rows as [|r rest IH]; [done |].
  simpl. rewrite fmap_app, IH.
  destruct (decide (phone r ∈ phone <$> rest)) as [Hin | Hout].
  - rewrite decide_True; [done | apply elem_of_app; by left].
  - destruct (decide (phone r ∈ phone <$> df)) as [Hdf | Hdf].
    + rewrite decide_True by (apply elem_of_app; by right).
      rewrite filter_cons_False; [done | by intros ?].
    + rewrite decide_False by (rewrite elem_of_app; tauto).
      by rewrite filter_cons_True.
Qed.

Lemma filter_phones_of_sheet df :
  filter (λ c, phone c ∉ phone <$> df) (drop_duplicates_last df) = [].
Proof.
  assert (∀ l, (∀ c, c ∈ l → phone c ∈ phone <$> df) →
               filter (λ c, phone c ∉ phone <$> df) l = []) as Hnone.
  { induction l as [|c l IH]; intros Hl; [done |].
    rewrite filter_cons_False.
    - apply IH. intros c' Hc'. apply Hl. by right.
    - intros Hc. apply Hc, Hl. by left. }
  apply Hnone. intros c Hc.
  by apply list_elem_of_fmap_2, drop_duplicates_last_subset.
Qed.

End Table.

Section TableOperations.

Import contact_manager.

Implicit Types rows df : list Contact.

Lemma filter_all (P : Contact → Prop) `{∀ c, Decision (P c)} rows :
  (∀ c, c ∈ rows → P c) → filter P rows = rows.
Proof.
  induction rows as [|c rows IH]; intros Hall; [done |].
  rewrite filter_cons_True by (apply Hall; by left).
  rewrite IH; [done |]. intros c' Hc'. apply Hall. by right.
Qed.

Lemma manager_eta (self : ContactManager) :
  {| file_path := file_path self; contacts := contacts self |} = self.
Proof. by destruct self. Qed.

(** X8: [remove_contact] drops every row whose phone is that text and
    keeps all other rows in their order, among them the rows whose phone
    the table holds as a number or as NaN.  When some row went, the table
    is written to its file; when no row has that phone, neither the
    manager nor the disk changes. *)
Theorem remove_contact_effect (phone_ : string) (self : ContactManager)
    (disk : Disk) :
  let removed := remove_contact phone_ self disk in
  (∀ c, c ∈ contacts removed.1 ↔ c ∈ contacts self ∧ phone c ≠ CStr phone_) ∧
  contacts removed.1 `sublist_of` contacts self ∧
  file_path removed.1 = file_path self ∧
  (CStr phone_ ∉ phone <$> contacts self → removed = (self, disk)) ∧
  (CStr phone_ ∈ phone <$> contacts self →
   (length (contacts removed.1) < length (contacts self))%nat ∧
   removed.2 = <[file_path self := contacts removed.1]> disk).
Proof.
  intros removed. subst removed. unfold remove_contact. cbv zeta.
  set (kept := filter (λ c, phone c ≠ CStr phone_) (contacts self)).
  assert (CStr phone_ ∉ phone <$> contacts self → kept = contacts self) as Hout.
  { intros Hno. apply filter_all. intros c Hc Heq. apply Hno.
    rewrite <- Heq. by apply list_elem_of_fmap_2. }
  assert (CStr phone_ ∈ phone <$> contacts self →
          (length kept < length (contacts self))%nat) as Hin.
  { intros (c & Hc & Hin)%list_elem_of_fmap.
    apply (length_filter_lt _ _ c); [done |]. intros Hne. by apply Hne. }
  split_and!.
  - intros c. case_decide; simpl; unfold kept; rewrite list_elem_of_filter; tauto.
  - case_decide; simpl; apply sublist_filter.
  - by case_decide.
  - intros Hno. simpl. rewrite (Hout Hno), decide_False by lia.
    by rewrite manager_eta.
  - intros Hyes. simpl. rewrite decide_True by auto. simpl. auto.
Qed.

Lemma remove_contact_effect_witness :
  let self := {| file_path := "contacts.csv";
                 contacts := [asha; numeric_phone; asha_renamed] |} in
  (CStr "9876543210" ∉ phone <$> contacts self) ∧
  remove_contact "9876543210" self ∅ = (self, ∅) ∧
  CStr "+919876543210" ∈ (phone <$> contacts self) ∧
  contacts (remove_contact "+919876543210" self ∅).1 = [numeric_phone] ∧
  (remove_contact "+919876543210" self ∅).2 =
    <["contacts.csv" := [numeric_phone]]> ∅.
Proof.
  assert (CStr "9876543210" ∉
          phone <$> [asha; numeric_phone; asha_renamed]) as Hno.
  { intros Hin. by repeat (apply elem_of_cons in Hin as [? | Hin]; [done |]);
      apply elem_of_nil in Hin. }
  assert (CStr "+919876543210" ∈
          phone <$> [asha; numeric_phone; asha_renamed]) as Hyes by (by left).
  pose proof (remove_contact_effect "9876543210"
                {| file_path := "contacts.csv";
                   contacts := [asha; numeric_phone; asha_renamed] |} ∅)
    as (_ & _ & _ & Hsame & _).
  pose proof (remove_contact_effect "+919876543210"
                {| file_path := "contacts.csv";
                   contacts := [asha; numeric_phone; asha_renamed] |} ∅)
    as (_ & _ & _ & _ & Hgone).
  split_and!; [exact Hno | exact (Hsame Hno) | exact Hyes | done |].
  exact (proj2 (Hgone Hyes)).
Defined.

(** X9: removing a number right after adding a contact with it undoes the
    addition: the table is what removing that number from the old table
    gives, so for a number the table did not hold the old table is back,
    and the file holds it. *)
Theorem add_then_remove (name_ phone_ group_ : string) (self : ContactManager)
    (disk : Disk) :
  let added := add_contact name_ phone_ group_ self disk in
  let removed := remove_contact phone_ added.1 added.2 in
  contacts removed.1 = filter (λ c, phone c ≠ CStr phone_) (contacts self) ∧
  (CStr phone_ ∉ phone <$> contacts self →
   removed = (self, <[file_path self := contacts self]> disk)).
Proof.
  intros added removed. subst added removed.
  unfold remove_contact, add_contact, save_contacts. cbv zeta. simpl.
  rewrite filter_app, filter_cons_False, filter_nil, app_nil_r
    by (intros Hne; by apply Hne).
  split; [by case_decide |].
  intros Hno.
  rewrite (filter_all (λ c, phone c ≠ CStr phone_)).
  - rewrite decide_True by (rewrite length_app; simpl; lia).
    simpl. by rewrite insert_insert_eq, manager_eta.
  - intros c Hc Heq. apply Hno. rewrite <- Heq. by apply list_elem_of_fmap_2.
Qed.

Lemma add_then_remove_witness :
  let self := {| file_path := "contacts.csv"; contacts := [bina] |} in
  (CStr "+919876543210" ∉ phone <$> contacts self) ∧
  remove_contact "+919876543210"
    (add_contact "Asha" "+919876543210" "general" self ∅).1
    (add_contact "Asha" "+919876543210" "general" self ∅).2 =
  (self, <["contacts.csv" := [bina]]> ∅).
Proof.
  assert (CStr "+919876543210" ∉ phone <$> [bina]) as Hno.
  { intros Hin. apply elem_of_cons in Hin as [? | Hin]; [done |].
    by apply elem_of_nil in Hin. }
  split; [exact Hno |].
  exact (proj2 (add_then_remove "Asha" "+919876543210" "general"
                  {| file_path := "contacts.csv"; contacts := [bina] |} ∅) Hno).
Defined.

(** X10: [get_contacts_by_group] lists, in table order, the phones of the
    rows whose group is that text.  Adding a contact appends its phone to
    the list of its own group and leaves the list of every other group as
    it was; removing a number takes exactly that number out of every
    list. *)
Theorem group_lists_follow_the_table (name_ phone_ group_ : string)
    (g : string) (self : ContactManager) (disk : Disk) :
  (∀ p, p ∈ get_contacts_by_group g self ↔
        ∃ c, c ∈ contacts self ∧ group c = CStr g ∧ phone c = p) ∧
  get_contacts_by_group g (add_contact name_ phone_ group_ self disk).1 =
    get_contacts_by_group g self ++
    (if decide (group_ = g) then [CStr phone_] else []) ∧
  get_contacts_by_group g (remove_contact phone_ self disk).1 =
    filter (λ p, p ≠ CStr phone_) (get_contacts_by_group g self).
Proof.
  unfold get_contacts_by_group. split_and!.
  - intros p. rewrite list_elem_of_fmap. split.
    + intros (c & -> & [Hg Hc]%list_elem_of_filter). by exists c.
    + intros (c & Hc & Hg & <-). exists c. by rewrite list_elem_of_filter.
  - simpl. rewrite filter_app, fmap_app. f_equal.
    rewrite filter_cons. simpl.
    destruct (decide (group_ = g)) as [-> | Hne].
    + by rewrite decide_True.
    + rewrite decide_False; [done |]. by intros [=].
  - unfold remove_contact. cbv zeta.
    assert (∀ rows,
              phone <$> filter (λ c, group c = CStr g)
                          (filter (λ c, phone c ≠ CStr phone_) rows) =
              filter (λ p, p ≠ CStr phone_)
                (phone <$> filter (λ c, group c = CStr g) rows)) as Hcomm.
    { induction rows as [|c rows IH]; [done |].
      destruct (decide (phone c ≠ CStr phone_)) as [Hp | Hp];
        destruct (decide (group c = CStr g)) as [Hg | Hg].
      - rewrite (filter_cons_True (λ c, phone c ≠ CStr phone_)) by done.
        rewrite !(filter_cons_True (λ c, group c = CStr g)) by done.
        rewrite !fmap_cons, filter_cons_True by done. by rewrite IH.
      - rewrite (filter_cons_True (λ c, phone c ≠ CStr phone_)) by done.
        by rewrite !(filter_cons_False (λ c, group c = CStr g)) by done.
      - rewrite (filter_cons_False (λ c, phone c ≠ CStr phone_)) by done.
        rewrite (filter_cons_True (λ c, group c = CStr g)) by done.
        by rewrite fmap_cons, filter_cons_False.
      - rewrite (filter_cons_False (λ c, phone c ≠ CStr phone_)) by done.
        by rewrite (filter_cons_False (λ c, group c = CStr g)). }
    case_decide; simpl; apply Hcomm.
Qed.

(** X11: on import the sheet wins.  The new table is the old table
    without its earlier duplicates and without every row whose phone
    occurs in the sheet, followed by the sheet without its own earlier
    duplicates.  Importing the same sheet once more changes neither the
    table nor the file. *)
Theorem import_lets_the_sheet_win
    (read_excel : string → exn + list Contact) (excel_path : string)
    (self : ContactManager) (disk : Disk) (df : list Contact) :
  read_excel excel_path = inr df →
  let imported := import_from_excel read_excel excel_path self disk in
  contacts imported.1 =
    filter (λ c, phone c ∉ phone <$> df) (drop_duplicates_last (contacts self)) ++
    drop_duplicates_last df ∧
  import_from_excel read_excel excel_path imported.1 imported.2 = imported.
Proof.
  intros Hread imported. subst imported.
  unfold import_from_excel, save_contacts. rewrite Hread. simpl.
  split; [apply drop_duplicates_last_app |].
  rewrite insert_insert_eq.
  assert (drop_duplicates_last (drop_duplicates_last (contacts self ++ df) ++ df) =
          drop_duplicates_last (contacts self ++ df)) as ->; [| done].
  rewrite (drop_duplicates_last_app (drop_duplicates_last _)).
  rewrite (drop_duplicates_last_id (drop_duplicates_last _))
    by apply drop_duplicates_last_NoDup.
  rewrite (drop_duplicates_last_app (contacts self)) at 1.
  rewrite filter_app, filter_phones_of_sheet, app_nil_r.
  rewrite list_filter_filter.
  rewrite (drop_duplicates_last_app (contacts self)). f_equal.
  apply list_filter_iff. tauto.
Qed.

Lemma import_lets_the_sheet_win_witness :
  let read_excel := one_sheet "new.xlsx" [asha_renamed; bina] in
  let self := {| file_path := "contacts.csv"; contacts := [asha; asha; numeric_phone] |} in
  read_excel "new.xlsx" = inr [asha_renamed; bina] ∧
  contacts (import_from_excel read_excel "new.xlsx" self ∅).1 =
    [numeric_phone; asha_renamed; bina] ∧
  import_from_excel read_excel "new.xlsx"
    (import_from_excel read_excel "new.xlsx" self ∅).1
    (import_from_excel read_excel "new.xlsx" self ∅).2 =
  import_from_excel read_excel "new.xlsx" self ∅.
Proof.
  split_and!; [done | done |].
  exact (proj2 (import_lets_the_sheet_win (one_sheet "new.xlsx" [asha_renamed; bina])
                  "new.xlsx"
                  {| file_path := "contacts.csv";
                     contacts := [asha; asha; numeric_phone] |}
                  ∅ [asha_renamed; bina] eq_refl)).
Defined.

(** X12: an import never makes the table longer than the old table plus
    the sheet, and it is the plain concatenation of the two exactly when
    no phone occurs twice in them; otherwise rows are dropped, also rows
    that were duplicates in the old table already.  When the sheet cannot
    be read, neither the manager nor the disk changes. *)
Theorem import_drops_only_duplicates
    (read_excel : string → exn + list Contact) (excel_path : string)
    (self : ContactManager) (disk : Disk) :
  (∀ e, read_excel excel_path = inl e →
        import_from_excel read_excel excel_path self disk = (self, disk)) ∧
  (∀ df, read_excel excel_path = inr df →
         let imported := import_from_excel read_excel excel_path self disk in
         (length (contacts imported.1) ≤ length (contacts self) + length df)%nat ∧
         (contacts imported.1 = contacts self ++ df ↔
          NoDup (phone <$> (contacts self ++ df)))).
Proof.
  split.
  - intros e Hread. unfold import_from_excel. by rewrite Hread.
  - intros df Hread imported. subst imported.
    unfold import_from_excel. rewrite Hread. simpl. split.
    + rewrite <- length_app. apply sublist_length, drop_duplicates_last_sublist.
    + split.
      * intros <-. apply drop_duplicates_last_NoDup.
      * apply drop_duplicates_last_id.
Qed.

Lemma import_drops_only_duplicates_witness :
  let self := {| file_path := "contacts.csv"; contacts := [asha; asha] |} in
  one_sheet "new.xlsx" [bina] "old.xlsx" = inl (Error "No such file or directory") ∧
  import_from_excel (one_sheet "new.xlsx" [bina]) "old.xlsx" self ∅ = (self, ∅) ∧
  one_sheet "new.xlsx" [bina] "new.xlsx" = inr [bina] ∧
  contacts (import_from_excel (one_sheet "new.xlsx" [bina]) "new.xlsx" self ∅).1 =
    [asha; bina] ∧
  (length (contacts
             (import_from_excel (one_sheet "new.xlsx" [bina]) "new.xlsx" self ∅).1)
   ≤ 2 + 1)%nat.
Proof.
  split_and!; [done | | done | done |].
  - exact (proj1 (import_drops_only_duplicates (one_sheet "new.xlsx" [bina])
                    "old.xlsx"
                    {| file_path := "contacts.csv"; contacts := [asha; asha] |} ∅)
             _ eq_refl).
  - exact (proj1 (proj2 (import_drops_only_duplicates (one_sheet "new.xlsx" [bina])
                           "new.xlsx"
                           {| file_path := "contacts.csv"; contacts := [asha; asha] |} ∅)
                    [bina] eq_refl)).
Defined.

End TableOperations.
